(** * A shallow embedding of the weather tool server ([src/server.py])

    The server exposes seven tools.  Each one builds a URL, asks the HTTP
    helper [make_openmeteo_request] for a parsed JSON body and formats a text
    answer.  The embedding follows the source function by function:

    - the values [response.json()] can produce are the type [pyval];
    - the Python operations the tools apply to them ([dict.get], [len],
      subscripting, truth testing, [str()], comparison with an integer) are
      functions into [pyres], whose [Raise] carries the exception class;
    - a tool is a computation in [IO]: it threads the list of URLs requested
      so far and reads responses from a [world]. *)

From Stdlib Require Import ZArith String Ascii List Bool Lia Floats Uint63 DecimalString.
Import ListNotations.

Set Warnings "-register-all".
Open Scope string_scope.

(** ** Strings

    A Python [str] is modelled by [string], the text in UTF-8.  A character
    of the text is one byte below 128 or a lead byte (192 and up) followed by
    its continuation bytes (128 to 191); [len], indexing and iteration go by
    character.  A text never starts with a continuation byte. *)

Definition nl : string := String (ascii_of_nat 10) EmptyString.

Definition is_ascii (c : ascii) : bool := (nat_of_ascii c <? 128)%nat.

Definition is_continuation (c : ascii) : bool :=
  (128 <=? nat_of_ascii c)%nat && (nat_of_ascii c <=? 191)%nat.

Definition is_lead (c : ascii) : bool := (192 <=? nat_of_ascii c)%nat.

(** The continuation bytes at the head of a text, and what follows them. *)
Fixpoint continuation (s : string) : string * string :=
  match s with
  | EmptyString => (EmptyString, EmptyString)
  | String c s' =>
      if is_continuation c then
        let (tail, rest) := continuation s' in (String c tail, rest)
      else (EmptyString, s)
  end.

(** The characters of a text, in order. *)
Fixpoint characters (s : string) : list string :=
  match s with
  | EmptyString => []
  | String c s' =>
      if is_continuation c then characters s'
      else String c (fst (continuation s')) :: characters s'
  end.

Definition lower_char (c : ascii) : ascii :=
  let n := nat_of_ascii c in
  if (65 <=? n)%nat && (n <=? 90)%nat then ascii_of_nat (n + 32) else c.

Definition upper_char (c : ascii) : ascii :=
  let n := nat_of_ascii c in
  if (97 <=? n)%nat && (n <=? 122)%nat then ascii_of_nat (n - 32) else c.

Fixpoint map_string (f : ascii -> ascii) (s : string) : string :=
  match s with
  | EmptyString => EmptyString
  | String c s' => String (f c) (map_string f s')
  end.

(** [s.lower()], as far as the tools use it.  The one use is the operand of
    ["not found" in ...] and ["unable to fetch" in ...] in
    [compare_weather_cities].  Python's [lower] turns a non-ASCII character
    into non-ASCII characters, except that U+0130 gives an [i] and U+212A a
    [k]; the two markers are ASCII and hold neither letter.  So converting
    the letters A to Z alone decides both tests as Python does. *)
Definition lower : string -> string := map_string lower_char.

(** The letters a to z of a text turned into capitals, every other byte
    kept: what [s.upper()] is on a text of ASCII characters. *)
Definition ascii_upper : string -> string := map_string upper_char.

(** [needle in s] on strings. *)
Fixpoint contains (needle s : string) : bool :=
  if String.prefix needle s then true
  else match s with
       | EmptyString => false
       | String _ s' => contains needle s'
       end.

(** [str(z)] for an [int]. *)
Definition str_int (z : Z) : string := NilZero.string_of_int (Z.to_int z).

(** [sep.join(l)]. *)
Definition join (sep : string) (l : list string) : string := String.concat sep l.

(** ** Exceptions and results *)

Inductive exn : Set :=
| AttributeError | TypeError | ValueError | IndexError | KeyError | OverflowError.

Inductive pyres (A : Type) : Type :=
| Ok (a : A)
| Raise (e : exn).
Arguments Ok {A} a.
Arguments Raise {A} e.

Definition bind {A B : Type} (m : pyres A) (k : A -> pyres B) : pyres B :=
  match m with
  | Ok a => k a
  | Raise e => Raise e
  end.

Declare Scope py_scope.
Delimit Scope py_scope with py.
Notation "x <- m ;; k" := (bind m (fun x => k))
  (at level 61, m at next level, right associativity) : py_scope.
Open Scope py_scope.

(** A loop body run over a list in order; the first exception ends the loop. *)
Fixpoint mapM {A B : Type} (f : A -> pyres B) (l : list A) : pyres (list B) :=
  match l with
  | [] => Ok []
  | a :: l' => b <- f a ;; bs <- mapM f l' ;; Ok (b :: bs)
  end.

(** ** Values

    What [json.loads] returns: [None], [bool], [int], [float], [str], [list]
    and [dict] with [str] keys.  A [dict] keeps its entries in order; the keys
    of a parsed object are distinct, and [lookup] reads the first entry of a
    key. *)

Inductive pyval : Type :=
| PNone
| PBool (b : bool)
| PInt (z : Z)
| PFloat (f : float)
| PStr (s : string)
| PList (l : list pyval)
| PDict (kv : list (string * pyval)).

Fixpoint lookup (k : string) (kv : list (string * pyval)) : option pyval :=
  match kv with
  | [] => None
  | (k', v) :: kv' => if String.eqb k k' then Some v else lookup k kv'
  end.

(** [bool(v)], the test behind [if v] and [not v]. *)
Definition truthy (v : pyval) : bool :=
  match v with
  | PNone => false
  | PBool b => b
  | PInt z => negb (z =? 0)%Z
  | PFloat f => negb (f =? 0)%float
  | PStr s => negb (String.eqb s "")
  | PList l => match l with [] => false | _ => true end
  | PDict kv => match kv with [] => false | _ => true end
  end.

(** [v is None]. *)
Definition is_none (v : pyval) : bool :=
  match v with PNone => true | _ => false end.

(** [d.get(k, default)]: only a [dict] has the method. *)
Definition dict_get (d : pyval) (k : string) (default : pyval) : pyres pyval :=
  match d with
  | PDict kv => Ok (match lookup k kv with Some v => v | None => default end)
  | _ => Raise AttributeError
  end.

(** [len(v)]. *)
Definition py_len (v : pyval) : pyres nat :=
  match v with
  | PStr s => Ok (List.length (characters s))
  | PList l => Ok (List.length l)
  | PDict kv => Ok (List.length kv)
  | _ => Raise TypeError
  end.

(** [v[i]] for a non-negative integer [i].  The keys of a [dict] are strings,
    so an integer is never one of them. *)
Definition py_getitem (v : pyval) (i : nat) : pyres pyval :=
  match v with
  | PList l => match nth_error l i with Some x => Ok x | None => Raise IndexError end
  | PStr s => match nth_error (characters s) i with
              | Some ch => Ok (PStr ch)
              | None => Raise IndexError
              end
  | PDict _ => Raise KeyError
  | _ => Raise TypeError
  end.

Definition chars (s : string) : list pyval := map PStr (characters s).

(** The items [for x in v] visits. *)
Definition py_iter (v : pyval) : pyres (list pyval) :=
  match v with
  | PList l => Ok l
  | PStr s => Ok (chars s)
  | PDict kv => Ok (map (fun e => PStr (fst e)) kv)
  | _ => Raise TypeError
  end.

(** The [float] equal to a small integer constant of the source (an
    alert threshold or a key of the code table). *)
Definition float_of_const (z : Z) : float :=
  if (z <? 0)%Z then (- PrimFloat.of_uint63 (Uint63.of_Z (- z)))%float
  else PrimFloat.of_uint63 (Uint63.of_Z z).

Definition int_of_bool (b : bool) : Z := if b then 1%Z else 0%Z.

(** Whether a value is a number ([bool] is a subclass of [int]). *)
Definition numeric (v : pyval) : bool :=
  match v with
  | PBool _ | PInt _ | PFloat _ => true
  | _ => false
  end.

(** [v >= c], [v <= c] and [v == c] on numbers, [c] an integer constant. *)
Definition ge_const (v : pyval) (c : Z) : bool :=
  match v with
  | PBool b => (c <=? int_of_bool b)%Z
  | PInt z => (c <=? z)%Z
  | PFloat f => (float_of_const c <=? f)%float
  | _ => false
  end.

Definition le_const (v : pyval) (c : Z) : bool :=
  match v with
  | PBool b => (int_of_bool b <=? c)%Z
  | PInt z => (z <=? c)%Z
  | PFloat f => (f <=? float_of_const c)%float
  | _ => false
  end.

Definition eq_const (v : pyval) (c : Z) : bool :=
  match v with
  | PBool b => (int_of_bool b =? c)%Z
  | PInt z => (z =? c)%Z
  | PFloat f => (f =? float_of_const c)%float
  | _ => false
  end.

(** The comparison operators raise on a value that is not a number. *)
Definition py_ge (v : pyval) (c : Z) : pyres bool :=
  if numeric v then Ok (ge_const v c) else Raise TypeError.

Definition py_le (v : pyval) (c : Z) : pyres bool :=
  if numeric v then Ok (le_const v c) else Raise TypeError.

(** [v in [c1, c2, ...]]: equality never raises. *)
Definition py_in (v : pyval) (cs : list Z) : bool := existsb (eq_const v) cs.

(** ** What the interpreter supplies

    Three renderings of the Python runtime are not spelled out: the shortest
    round-trip digits of a [float], the [.4f] rounding of a [float] (and of
    an [int] too large to be a [float] exactly), and the quoting of a [str]
    inside a printed container.  Nor is the Unicode character database of the
    interpreter, which differs from one Python version to the next: the
    capital form of a non-ASCII character, which can be several characters,
    and the value of a non-ASCII decimal digit.  The tools take them as a
    parameter. *)

Inductive digit : Set := D0 | D1 | D2 | D3 | D4 | D5 | D6 | D7 | D8 | D9.

Definition decimal_value (d : digit) : Z :=
  match d with
  | D0 => 0 | D1 => 1 | D2 => 2 | D3 => 3 | D4 => 4
  | D5 => 5 | D6 => 6 | D7 => 7 | D8 => 8 | D9 => 9
  end%Z.

Record builtins : Type := {
  float_str : float -> string;             (* str(f) and f"{f}" *)
  float_format_4f : float -> string;       (* format(f, ".4f") *)
  big_int_format_4f : Z -> pyres string;   (* format(z, ".4f") for |z| > 2**53 *)
  str_repr : string -> string;             (* repr(s) *)
  unicode_upper : string -> string;        (* ch.upper(), ch one non-ASCII character *)
  unicode_decimal : string -> option digit (* the digit a non-ASCII character is, if any *)
}.

(** ** The code table, [WEATHER_CODES] *)

Definition WEATHER_CODES : list (Z * string) :=
  [ (0, "Clear sky"); (1, "Mainly clear"); (2, "Partly cloudy"); (3, "Overcast");
    (45, "Fog"); (48, "Depositing rime fog");
    (51, "Light drizzle"); (53, "Moderate drizzle"); (55, "Dense drizzle");
    (56, "Light freezing drizzle"); (57, "Dense freezing drizzle");
    (61, "Slight rain"); (63, "Moderate rain"); (65, "Heavy rain");
    (66, "Light freezing rain"); (67, "Heavy freezing rain");
    (71, "Slight snow fall"); (73, "Moderate snow fall"); (75, "Heavy snow fall");
    (77, "Snow grains");
    (80, "Slight rain showers"); (81, "Moderate rain showers");
    (82, "Violent rain showers");
    (85, "Slight snow showers"); (86, "Heavy snow showers");
    (95, "Thunderstorm"); (96, "Thunderstorm with slight hail");
    (99, "Thunderstorm with heavy hail") ]%Z.

(** The entry of an integer key. *)
Fixpoint table_find (c : Z) (t : list (Z * string)) : option string :=
  match t with
  | [] => None
  | (k, d) :: t' => if (k =? c)%Z then Some d else table_find c t'
  end.

(** [WEATHER_CODES.get(key, default)].  A key is found by hash and equality:
    [True] is the key [1], a [float] equal to an integer key is that key,
    [None] and strings are no key, and a [list] or [dict] cannot be hashed. *)
Definition WEATHER_CODES_get (key : pyval) (default : string) : pyres string :=
  match key with
  | PInt z => Ok (match table_find z WEATHER_CODES with Some d => d | None => default end)
  | PBool b => Ok (match table_find (int_of_bool b) WEATHER_CODES with
                   | Some d => d | None => default end)
  | PFloat f => Ok (match find (fun e => (f =? float_of_const (fst e))%float) WEATHER_CODES with
                    | Some e => snd e | None => default end)
  | PNone | PStr _ => Ok default
  | PList _ | PDict _ => Raise TypeError
  end.

Section Rendering.

Variable py : builtins.

(** [repr(v)]. *)
Fixpoint py_repr (v : pyval) : string :=
  match v with
  | PNone => "None"
  | PBool b => if b then "True" else "False"
  | PInt z => str_int z
  | PFloat f => float_str py f
  | PStr s => str_repr py s
  | PList l => "[" ++ join ", " (map py_repr l) ++ "]"
  | PDict kv =>
      "{" ++ join ", " (map (fun e => str_repr py (fst e) ++ ": " ++ py_repr (snd e)) kv) ++ "}"
  end.

(** [str(v)], which is what a replacement field [{v}] of an f-string inserts. *)
Definition py_str (v : pyval) : string :=
  match v with
  | PStr s => s
  | _ => py_repr v
  end.

(** [format(v, ".4f")], the replacement field [{v:.4f}].  An [int] is
    converted to [float] first, which is exact up to [2**53]. *)
Definition format_4f (v : pyval) : pyres string :=
  match v with
  | PInt z =>
      if (Z.abs z <=? 2 ^ 53)%Z then Ok (str_int z ++ ".0000")
      else big_int_format_4f py z
  | PBool b => Ok (str_int (int_of_bool b) ++ ".0000")
  | PFloat f => Ok (float_format_4f py f)
  | PStr _ => Raise ValueError
  | PNone | PList _ | PDict _ => Raise TypeError
  end.

(** [s.upper()].  Python converts character by character: the letters a to
    z become capitals, any other ASCII character stays, and a non-ASCII
    character becomes what the Unicode database lists. *)
Definition upper_character (ch : string) : string :=
  match ch with
  | EmptyString => EmptyString
  | String c _ => if is_ascii c then ascii_upper ch else unicode_upper py ch
  end.

Definition upper (s : string) : string := join "" (map upper_character (characters s)).

End Rendering.

(** ** The outside world

    One GET either fails in transport (no connection, timeout) or brings a
    response with a status and a body; [body = None] stands for a body
    [response.json()] cannot parse.  The world answers the [n]-th request of a
    tool call, and tells the date. *)

Inductive http_outcome : Type :=
| TransportError
| Response (status : Z) (body : option pyval).

Record date : Set := mkdate { year : Z; month : Z; day : Z }.

Record world : Type := {
  today : date;
  network : nat -> string -> http_outcome
}.

(** [response.raise_for_status()] passes for the 2xx statuses only. *)
Definition is_success (status : Z) : bool := (200 <=? status)%Z && (status <=? 299)%Z.

(** What [make_openmeteo_request] returns for an outcome: the [try] block
    returns the parsed body, and every exception becomes [None]. *)
Definition fetch_result (o : http_outcome) : pyval :=
  match o with
  | TransportError => PNone
  | Response status body =>
      if is_success status then
        match body with
        | Some v => v
        | None => PNone
        end
      else PNone
  end.

(** A tool runs against the list of URLs requested so far and returns it
    extended; an exception keeps the requests already made. *)
Definition IO (A : Type) : Type := list string -> pyres A * list string.

Definition ret {A : Type} (a : A) : IO A := fun log => (Ok a, log).

Definition lift {A : Type} (r : pyres A) : IO A := fun log => (r, log).

Definition bindIO {A B : Type} (m : IO A) (k : A -> IO B) : IO B :=
  fun log =>
    match m log with
    | (Ok a, log') => k a log'
    | (Raise e, log') => (Raise e, log')
    end.

Notation "x <~ m ;; k" := (bindIO m (fun x => k))
  (at level 61, m at next level, right associativity) : py_scope.

Definition OPENMETEO_API_BASE : string := "https://api.open-meteo.com/v1".
Definition GEOCODING_API_BASE : string := "https://geocoding-api.open-meteo.com/v1".

(** ** The tools *)

Section Tools.

Variable py : builtins.
Variable env : world.

(** [make_openmeteo_request(url)]: one GET, logged; any failure gives [None]. *)
Definition make_openmeteo_request (url : string) : IO pyval :=
  fun log => (Ok (fetch_result (network env (List.length log) url)), (log ++ [url])%list).

(** *** [get_current_weather] *)

Definition current_weather_url (latitude longitude : float) : string :=
  OPENMETEO_API_BASE ++ "/forecast?latitude=" ++ float_str py latitude
  ++ "&longitude=" ++ float_str py longitude
  ++ "&current=temperature_2m,is_day,showers,cloud_cover,wind_speed_10m,wind_direction_10m,pressure_msl,snowfall,precipitation,relative_humidity_2m,apparent_temperature,rain,weather_code,surface_pressure,wind_gusts_10m".

(** The report built from a fetched body (lines 79 to 94 of the source). *)
Definition current_weather_report (data : pyval) : pyres string :=
  current <- dict_get data "current" (PDict []) ;;
  temperature <- dict_get current "temperature_2m" (PStr "N/A") ;;
  apparent <- dict_get current "apparent_temperature" (PStr "N/A") ;;
  humidity <- dict_get current "relative_humidity_2m" (PStr "N/A") ;;
  wind_speed <- dict_get current "wind_speed_10m" (PStr "N/A") ;;
  wind_direction <- dict_get current "wind_direction_10m" (PStr "N/A") ;;
  pressure <- dict_get current "pressure_msl" (PStr "N/A") ;;
  cloud_cover <- dict_get current "cloud_cover" (PStr "N/A") ;;
  precipitation <- dict_get current "precipitation" (PStr "N/A") ;;
  rain <- dict_get current "rain" (PStr "N/A") ;;
  snowfall <- dict_get current "snowfall" (PStr "N/A") ;;
  weather_code <- dict_get current "weather_code" PNone ;;
  weather_desc <- WEATHER_CODES_get weather_code "Unknown" ;;
  Ok ("Current Weather:" ++ nl
      ++ "Temperature: " ++ py_str py temperature ++ "°C" ++ nl
      ++ "Feels like: " ++ py_str py apparent ++ "°C" ++ nl
      ++ "Humidity: " ++ py_str py humidity ++ "%" ++ nl
      ++ "Wind Speed: " ++ py_str py wind_speed ++ " km/h" ++ nl
      ++ "Wind Direction: " ++ py_str py wind_direction ++ "°" ++ nl
      ++ "Pressure: " ++ py_str py pressure ++ " hPa" ++ nl
      ++ "Cloud Cover: " ++ py_str py cloud_cover ++ "%" ++ nl
      ++ "Precipitation: " ++ py_str py precipitation ++ " mm" ++ nl
      ++ "Rain: " ++ py_str py rain ++ " mm" ++ nl
      ++ "Snow: " ++ py_str py snowfall ++ " mm" ++ nl
      ++ "Weather: " ++ weather_desc).

Definition get_current_weather (latitude longitude : float) : IO string :=
  data <~ make_openmeteo_request (current_weather_url latitude longitude) ;;
  if negb (truthy data) then
    ret "Unable to fetch current weather data for this location."
  else lift (current_weather_report data).

(** *** [search_locations] *)

Definition search_url (query : string) : string :=
  GEOCODING_API_BASE ++ "/search?name=" ++ query ++ "&count=5&language=en&format=json".

(** The body of the loop over [data['results']]: the line of one match. *)
Definition location_str (result : pyval) : pyres string :=
  name <- dict_get result "name" (PStr "Unknown") ;;
  country <- dict_get result "country" (PStr "Unknown") ;;
  admin1 <- dict_get result "admin1" (PStr "") ;;
  lat <- dict_get result "latitude" (PInt 0) ;;
  lon <- dict_get result "longitude" (PInt 0) ;;
  let s := py_str py name in
  let s := if truthy admin1 then s ++ ", " ++ py_str py admin1 else s in
  lat_s <- format_4f py lat ;;
  lon_s <- format_4f py lon ;;
  Ok (s ++ ", " ++ py_str py country ++ " (Lat: " ++ lat_s ++ ", Lon: " ++ lon_s ++ ")").

Definition no_locations (query : string) : string :=
  "No locations found for '" ++ query ++ "'".

Definition search_locations (query : string) : IO string :=
  data <~ make_openmeteo_request (search_url query) ;;
  if negb (truthy data) then ret (no_locations query)
  else lift (
    results <- dict_get data "results" PNone ;;
    if negb (truthy results) then Ok (no_locations query)
    else
      items <- py_iter results ;;
      locations <- mapM location_str items ;;
      Ok ("Found locations:" ++ nl ++ join nl locations)).

(** *** [get_weather_forecast] *)

(** [max(1, min(days, 16))]. *)
Definition clamp_days (days : Z) : Z := Z.max 1 (Z.min days 16).

Definition forecast_url (latitude longitude : float) (days : Z) : string :=
  OPENMETEO_API_BASE ++ "/forecast?latitude=" ++ float_str py latitude
  ++ "&longitude=" ++ float_str py longitude
  ++ "&daily=weather_code,temperature_2m_max,temperature_2m_min,precipitation_sum,wind_speed_10m_max,wind_direction_10m_dominant&forecast_days="
  ++ str_int days ++ "&timezone=auto".

(** [daily.get(key, [])[i] if i < len(daily.get(key, [])) else default]. *)
Definition daily_at (daily : pyval) (key : string) (i : nat) (default : pyval)
  : pyres pyval :=
  bound <- dict_get daily key (PList []) ;;
  n <- py_len bound ;;
  if (i <? n)%nat then
    values <- dict_get daily key (PList []) ;;
    py_getitem values i
  else Ok default.

(** The description of a code as the forecast, the city report and the
    historical report compute it:
    [WEATHER_CODES.get(weather_code, 'Unknown') if weather_code else 'Unknown']. *)
Definition describe_if_truthy (weather_code : pyval) : pyres string :=
  if truthy weather_code then WEATHER_CODES_get weather_code "Unknown"
  else Ok "Unknown".

(** The body of the loop over [range(len(dates))]. *)
Definition forecast_line (daily dates : pyval) (i : nat) : pyres string :=
  date <- py_getitem dates i ;;
  weather_code <- daily_at daily "weather_code" i PNone ;;
  temp_max <- daily_at daily "temperature_2m_max" i (PStr "N/A") ;;
  temp_min <- daily_at daily "temperature_2m_min" i (PStr "N/A") ;;
  precipitation <- daily_at daily "precipitation_sum" i (PStr "N/A") ;;
  wind_speed <- daily_at daily "wind_speed_10m_max" i (PStr "N/A") ;;
  weather_desc <- describe_if_truthy weather_code ;;
  Ok (py_str py date ++ ": " ++ weather_desc ++ ", "
      ++ py_str py temp_min ++ "°C - " ++ py_str py temp_max ++ "°C, Rain: "
      ++ py_str py precipitation ++ "mm, Wind: " ++ py_str py wind_speed ++ "km/h").

Definition forecast_report (days : Z) (data : pyval) : pyres string :=
  daily <- dict_get data "daily" (PDict []) ;;
  dates <- dict_get daily "time" (PList []) ;;
  n <- py_len dates ;;
  lines <- mapM (forecast_line daily dates) (seq 0 n) ;;
  Ok (join nl (("Weather Forecast for " ++ str_int days ++ " days:") :: lines)).

Definition get_weather_forecast (latitude longitude : float) (days : Z) : IO string :=
  let days := clamp_days days in
  data <~ make_openmeteo_request (forecast_url latitude longitude days) ;;
  if negb (truthy data) then ret "Unable to fetch forecast data for this location."
  else lift (forecast_report days data).

(** *** [get_weather_alerts] *)

Definition alerts_url (latitude longitude : float) : string :=
  OPENMETEO_API_BASE ++ "/forecast?latitude=" ++ float_str py latitude
  ++ "&longitude=" ++ float_str py longitude
  ++ "&current=temperature_2m,wind_speed_10m,precipitation,weather_code&hourly=temperature_2m,precipitation,wind_speed_10m&forecast_days=2&timezone=auto".

Definition HEAT_WARNING : string := "🔥 HEAT WARNING: Extreme temperature detected".
Definition COLD_WARNING : string := "🥶 COLD WARNING: Extreme cold temperature detected".
Definition WIND_WARNING : string := "💨 WIND WARNING: High wind speeds detected".
Definition PRECIPITATION_WARNING : string :=
  "🌧️ PRECIPITATION WARNING: Heavy precipitation detected".
Definition THUNDERSTORM_WARNING : string :=
  "⛈️ THUNDERSTORM WARNING: Thunderstorm conditions detected".
Definition NO_ALERTS : string := "✅ No weather alerts or warnings for this location.".

(** [alerts.append(line)]. *)
Definition append (alerts : list string) (line : string) : list string :=
  (alerts ++ [line])%list.

(** Lines 179 to 206 of the source; [alerts] is the list the source appends to. *)
Definition alerts_report (data : pyval) : pyres string :=
  let alerts : list string := [] in
  current <- dict_get data "current" (PDict []) ;;
  temp <- dict_get current "temperature_2m" PNone ;;
  wind_speed <- dict_get current "wind_speed_10m" PNone ;;
  precipitation <- dict_get current "precipitation" PNone ;;
  weather_code <- dict_get current "weather_code" PNone ;;
  alerts <-
    (if negb (is_none temp) then
       hot <- py_ge temp 35 ;;
       if hot then Ok (append alerts HEAT_WARNING)
       else
         cold <- py_le temp (-20) ;;
         if cold then Ok (append alerts COLD_WARNING) else Ok alerts
     else Ok alerts) ;;
  alerts <-
    (if negb (is_none wind_speed) then
       windy <- py_ge wind_speed 60 ;;
       if windy then Ok (append alerts WIND_WARNING) else Ok alerts
     else Ok alerts) ;;
  alerts <-
    (if negb (is_none precipitation) then
       wet <- py_ge precipitation 20 ;;
       if wet then Ok (append alerts PRECIPITATION_WARNING) else Ok alerts
     else Ok alerts) ;;
  let alerts :=
    if py_in weather_code [95; 96; 99]%Z then append alerts THUNDERSTORM_WARNING
    else alerts in
  match alerts with
  | [] => Ok NO_ALERTS
  | _ => Ok ("Weather Alerts:" ++ nl ++ join nl alerts)
  end.

Definition get_weather_alerts (latitude longitude : float) : IO string :=
  data <~ make_openmeteo_request (alerts_url latitude longitude) ;;
  if negb (truthy data) then
    ret "Unable to fetch weather alert data for this location."
  else lift (alerts_report data).

(** *** [get_weather_by_city] *)

Definition city_search_url (city_name : string) : string :=
  GEOCODING_API_BASE ++ "/search?name=" ++ city_name ++ "&count=1&language=en&format=json".

Definition city_weather_url (latitude longitude : pyval) : string :=
  OPENMETEO_API_BASE ++ "/forecast?latitude=" ++ py_str py latitude
  ++ "&longitude=" ++ py_str py longitude
  ++ "&current=temperature_2m,is_day,cloud_cover,wind_speed_10m,wind_direction_10m,pressure_msl,precipitation,relative_humidity_2m,apparent_temperature,weather_code".

Definition city_not_found (city_name : string) : string :=
  "City '" ++ city_name ++ "' not found. Please check the spelling and try again.".

Definition city_unable_to_fetch (name country : pyval) : string :=
  "Unable to fetch weather data for " ++ py_str py name ++ ", " ++ py_str py country ++ ".".

(** Lines 240 to 255 of the source. *)
Definition city_weather_report (name country weather_data : pyval) : pyres string :=
  current <- dict_get weather_data "current" (PDict []) ;;
  weather_code <- dict_get current "weather_code" PNone ;;
  weather_desc <- describe_if_truthy weather_code ;;
  temperature <- dict_get current "temperature_2m" (PStr "N/A") ;;
  apparent <- dict_get current "apparent_temperature" (PStr "N/A") ;;
  humidity <- dict_get current "relative_humidity_2m" (PStr "N/A") ;;
  wind_speed <- dict_get current "wind_speed_10m" (PStr "N/A") ;;
  wind_direction <- dict_get current "wind_direction_10m" (PStr "N/A") ;;
  pressure <- dict_get current "pressure_msl" (PStr "N/A") ;;
  cloud_cover <- dict_get current "cloud_cover" (PStr "N/A") ;;
  precipitation <- dict_get current "precipitation" (PStr "N/A") ;;
  Ok ("Weather in " ++ py_str py name ++ ", " ++ py_str py country ++ ":" ++ nl
      ++ "Weather: " ++ weather_desc ++ nl
      ++ "Temperature: " ++ py_str py temperature ++ "°C" ++ nl
      ++ "Feels like: " ++ py_str py apparent ++ "°C" ++ nl
      ++ "Humidity: " ++ py_str py humidity ++ "%" ++ nl
      ++ "Wind Speed: " ++ py_str py wind_speed ++ " km/h" ++ nl
      ++ "Wind Direction: " ++ py_str py wind_direction ++ "°" ++ nl
      ++ "Pressure: " ++ py_str py pressure ++ " hPa" ++ nl
      ++ "Cloud Cover: " ++ py_str py cloud_cover ++ "%" ++ nl
      ++ "Precipitation: " ++ py_str py precipitation ++ " mm").

Definition get_weather_by_city (city_name : string) : IO string :=
  location_data <~ make_openmeteo_request (city_search_url city_name) ;;
  if negb (truthy location_data) then ret (city_not_found city_name)
  else
    results <~ lift (dict_get location_data "results" PNone) ;;
    if negb (truthy results) then ret (city_not_found city_name)
    else
      location <~ lift (py_getitem results 0) ;;
      latitude <~ lift (dict_get location "latitude" PNone) ;;
      longitude <~ lift (dict_get location "longitude" PNone) ;;
      name <~ lift (dict_get location "name" PNone) ;;
      country <~ lift (dict_get location "country" PNone) ;;
      if is_none latitude || is_none longitude then
        ret ("Could not get coordinates for '" ++ city_name ++ "'")
      else
        weather_data <~ make_openmeteo_request (city_weather_url latitude longitude) ;;
        if negb (truthy weather_data) then ret (city_unable_to_fetch name country)
        else lift (city_weather_report name country weather_data).

(** *** [compare_weather_cities] *)

(** ["not found" in weather.lower() or "unable to fetch" in weather.lower()]. *)
Definition lookup_failed (weather : string) : bool :=
  contains "not found" (lower weather) || contains "unable to fetch" (lower weather).

Definition could_not_get (city weather : string) : string :=
  "Could not get weather data for " ++ city ++ ": " ++ weather.

Definition comparison (city1 weather1 city2 weather2 : string) : string :=
  "Weather Comparison:" ++ nl
  ++ nl
  ++ "📍 " ++ upper py city1 ++ ":" ++ nl
  ++ weather1 ++ nl
  ++ nl
  ++ "📍 " ++ upper py city2 ++ ":" ++ nl
  ++ weather2.

Definition compare_weather_cities (city1 city2 : string) : IO string :=
  weather1 <~ get_weather_by_city city1 ;;
  weather2 <~ get_weather_by_city city2 ;;
  if lookup_failed weather1 then ret (could_not_get city1 weather1)
  else if lookup_failed weather2 then ret (could_not_get city2 weather2)
  else ret (comparison city1 weather1 city2 weather2).

End Tools.

(** ** Dates

    [datetime.strptime(s, '%Y-%m-%d')] turns the format into the regular
    expression
    [(?P<Y>\d\d\d\d)-(?P<m>1[0-2]|0[1-9]|[1-9])-(?P<d>3[0-1]|[1-2]\d|0[1-9]|[1-9]| [1-9])],
    matches it at the start of the string, raises [ValueError] when nothing
    matches or when text is left over, and then builds the date, which raises
    [ValueError] for year 0 and for a day the month does not have.  The
    matcher below lists, for each group, the ways it can match in the order
    the expression tries them.  A range such as [[1-9]] holds ASCII digits
    only; [\d] matches every decimal digit of Unicode, and [int()] reads each
    by its value. *)

Definition char_between (lo hi c : ascii) : bool :=
  (nat_of_ascii lo <=? nat_of_ascii c)%nat && (nat_of_ascii c <=? nat_of_ascii hi)%nat.

Definition is_digit (c : ascii) : bool := char_between "0" "9" c.

Definition digit_value (c : ascii) : Z := Z.of_nat (nat_of_ascii c - 48).

(** One character in a range followed by one in another range. *)
Definition match_two (lo1 hi1 lo2 hi2 : ascii) (s : string) : list (Z * string) :=
  match s with
  | String a (String b rest) =>
      if char_between lo1 hi1 a && char_between lo2 hi2 b then
        [(10 * digit_value a + digit_value b, rest)%Z]
      else []
  | _ => []
  end.

Definition match_one (lo hi : ascii) (s : string) : list (Z * string) :=
  match s with
  | String a rest => if char_between lo hi a then [(digit_value a, rest)] else []
  | _ => []
  end.

Definition match_char (c : ascii) (s : string) : list string :=
  match s with
  | String a rest => if Ascii.eqb a c then [rest] else []
  | _ => []
  end.

(** [1[0-2]|0[1-9]|[1-9]] *)
Definition match_m (s : string) : list (Z * string) :=
  (match_two "1" "1" "0" "2" s ++ match_two "0" "0" "1" "9" s ++ match_one "1" "9" s)%list.

Definition is_leap (y : Z) : bool :=
  ((y mod 4 =? 0) && (negb (y mod 100 =? 0) || (y mod 400 =? 0)))%Z.

Definition days_in_month (y m : Z) : Z :=
  (if m =? 2 then (if is_leap y then 29 else 28)
   else if (m =? 4) || (m =? 6) || (m =? 9) || (m =? 11) then 30
   else 31)%Z.

Section Strptime.

Variable py : builtins.

(** [\d]: an ASCII digit, or a non-ASCII character that is a decimal digit. *)
Definition match_digit (s : string) : list (Z * string) :=
  match s with
  | EmptyString => []
  | String a s' =>
      if is_digit a then [(digit_value a, s')]
      else if is_lead a then
        let (tail, rest) := continuation s' in
        match unicode_decimal py (String a tail) with
        | Some d => [(decimal_value d, rest)]
        | None => []
        end
      else []
  end.

(** [\d\d\d\d] *)
Definition match_Y (s : string) : list (Z * string) :=
  flat_map (fun a =>
    flat_map (fun b =>
      flat_map (fun c =>
        map (fun d => (1000 * fst a + 100 * fst b + 10 * fst c + fst d, snd d)%Z)
            (match_digit (snd c)))
        (match_digit (snd b)))
      (match_digit (snd a)))
    (match_digit s).

(** One character in a range followed by [\d]. *)
Definition match_then_digit (lo hi : ascii) (s : string) : list (Z * string) :=
  flat_map (fun a => map (fun b => (10 * fst a + fst b, snd b)%Z) (match_digit (snd a)))
           (match_one lo hi s).

(** [3[0-1]|[1-2]\d|0[1-9]|[1-9]| [1-9]] *)
Definition match_d (s : string) : list (Z * string) :=
  (match_two "3" "3" "0" "1" s ++ match_then_digit "1" "2" s
   ++ match_two "0" "0" "1" "9" s ++ match_one "1" "9" s
   ++ flat_map (match_one "1" "9") (match_char " " s))%list.

(** Every way the whole expression matches a prefix of [s], best first. *)
Definition matches (s : string) : list (Z * Z * Z * string) :=
  flat_map (fun Y =>
    flat_map (fun s1 =>
      flat_map (fun m =>
        flat_map (fun s2 =>
          map (fun d => (fst Y, fst m, fst d, snd d)) (match_d s2))
          (match_char "-" (snd m)))
        (match_m s1))
      (match_char "-" (snd Y)))
    (match_Y s).

(** [datetime.strptime(s, '%Y-%m-%d').date()] *)
Definition strptime (s : string) : pyres date :=
  match matches s with
  | [] => Raise ValueError
  | (y, m, d, rest) :: _ =>
      if negb (String.eqb rest "") then Raise ValueError
      else if ((1 <=? y) && (d <=? days_in_month y m))%Z then Ok (mkdate y m d)
      else Raise ValueError
  end.

End Strptime.

(** [a >= b] on dates: the order of the triples (year, month, day). *)
Definition date_ge (a b : date) : bool :=
  match (year a ?= year b)%Z with
  | Gt => true
  | Lt => false
  | Eq => match (month a ?= month b)%Z with
          | Gt => true
          | Lt => false
          | Eq => (day b <=? day a)%Z
          end
  end.

Section Historical.

Variable py : builtins.
Variable env : world.

(** *** [get_historical_weather] *)

Definition archive_url (latitude longitude : float) (date : string) : string :=
  "https://archive-api.open-meteo.com/v1/archive?latitude=" ++ float_str py latitude
  ++ "&longitude=" ++ float_str py longitude
  ++ "&start_date=" ++ date ++ "&end_date=" ++ date
  ++ "&daily=weather_code,temperature_2m_max,temperature_2m_min,precipitation_sum,wind_speed_10m_max&timezone=auto".

Definition INVALID_DATE_FORMAT : string :=
  "Invalid date format. Please use YYYY-MM-DD format.".

Definition PAST_DATES_ONLY : string :=
  "Historical weather data is only available for past dates.".

(** [daily.get(key, [default])[0]] *)
Definition first_of (daily : pyval) (key : string) (default : pyval) : pyres pyval :=
  values <- dict_get daily key (PList [default]) ;;
  py_getitem values 0.

(** Lines 315 to 333 of the source. *)
Definition historical_report (date : string) (data : pyval) : pyres string :=
  daily <- dict_get data "daily" (PDict []) ;;
  time <- dict_get daily "time" PNone ;;
  if negb (truthy time) then Ok ("No historical data available for " ++ date ++ ".")
  else
    weather_code <- first_of daily "weather_code" PNone ;;
    temp_max <- first_of daily "temperature_2m_max" (PStr "N/A") ;;
    temp_min <- first_of daily "temperature_2m_min" (PStr "N/A") ;;
    precipitation <- first_of daily "precipitation_sum" (PStr "N/A") ;;
    wind_speed <- first_of daily "wind_speed_10m_max" (PStr "N/A") ;;
    weather_desc <- describe_if_truthy weather_code ;;
    Ok ("Historical Weather for " ++ date ++ ":" ++ nl
        ++ "Weather: " ++ weather_desc ++ nl
        ++ "Temperature: " ++ py_str py temp_min ++ "°C - " ++ py_str py temp_max ++ "°C" ++ nl
        ++ "Precipitation: " ++ py_str py precipitation ++ " mm" ++ nl
        ++ "Max Wind Speed: " ++ py_str py wind_speed ++ " km/h").

Definition get_historical_weather (latitude longitude : float) (date : string) : IO string :=
  match strptime py date with
  | Raise ValueError => ret INVALID_DATE_FORMAT
  | Raise e => lift (Raise e)
  | Ok _ =>
      request_date <~ lift (strptime py date) ;;
      if date_ge request_date (today env) then ret PAST_DATES_ONLY
      else
        data <~ make_openmeteo_request env (archive_url latitude longitude date) ;;
        if negb (truthy data) then
          ret ("Unable to fetch historical weather data for " ++ date ++ ".")
        else lift (historical_report date data)
  end.

End Historical.

(** ** Sample inputs *)

(** Stand-ins for what the interpreter supplies, for running the tools on
    inputs whose answer holds no rendering of a [float]: the capitals of three
    characters and the fullwidth digits are as in Unicode. *)
Definition sample_capitals : list (string * string) :=
  [("ü", "Ü"); ("é", "É"); ("ß", "SS")].

Definition sample_digits : list (string * digit) :=
  [("０", D0); ("１", D1); ("２", D2); ("３", D3); ("４", D4);
   ("５", D5); ("６", D6); ("７", D7); ("８", D8); ("９", D9)].

Definition sample_builtins : builtins := {|
  float_str := fun _ => "<float>";
  float_format_4f := fun _ => "<float:.4f>";
  big_int_format_4f := fun _ => Raise OverflowError;
  str_repr := fun s => "'" ++ s ++ "'";
  unicode_upper := fun ch =>
    match find (fun e => String.eqb (fst e) ch) sample_capitals with
    | Some e => snd e
    | None => ch
    end;
  unicode_decimal := fun ch =>
    match find (fun e => String.eqb (fst e) ch) sample_digits with
    | Some e => Some (snd e)
    | None => None
    end
|}.

(** A world that answers every request with the same outcome. *)
Definition constant_world (d : date) (o : http_outcome) : world :=
  {| today := d; network := fun _ _ => o |}.

(** A world that answers the requests of one tool call in turn, and fails
    in transport once the list is used up. *)
Definition scripted_world (d : date) (answers : list http_outcome) : world :=
  {| today := d; network := fun n _ => nth n answers TransportError |}.

Definition ok_body (v : pyval) : http_outcome := Response 200 (Some v).

(** A geocoding answer with one match. *)
Definition sample_location : list (string * pyval) :=
  [("name", PStr "Paris"); ("country", PStr "France");
   ("latitude", PInt 49); ("longitude", PInt 2)].

Definition sample_geocoding : pyval :=
  PDict [("results", PList [PDict sample_location])].

(** A current-conditions answer, and a world in which two city lookups in a
    row succeed. *)
Definition sample_weather : pyval :=
  PDict [("current", PDict [("temperature_2m", PInt 21); ("weather_code", PInt 3)])].

Definition sample_env : world :=
  scripted_world (mkdate 2025 6 15)
    [ok_body sample_geocoding; ok_body sample_weather;
     ok_body sample_geocoding; ok_body sample_weather].

Definition sample_report : string :=
  Eval vm_compute in
    match fst (get_weather_by_city sample_builtins sample_env "Paris" []) with
    | Ok text => text
    | Raise _ => ""
    end.

Definition sample_log : list string :=
  Eval vm_compute in snd (get_weather_by_city sample_builtins sample_env "Paris" []).


(** A snapshot that is hot, windy and stormy. *)
Definition sample_snapshot : list (string * pyval) :=
  [("temperature_2m", PFloat 36.5); ("wind_speed_10m", PInt 70);
   ("precipitation", PInt 0); ("weather_code", PInt 95)].

(** An archive answer that has the day but an empty code list, and answers
    that report the code 0. *)
Definition archive_with_no_codes : pyval :=
  PDict [("daily", PDict [("time", PList [PStr "2020-01-01"]);
                          ("weather_code", PList []);
                          ("temperature_2m_max", PList [PInt 5]);
                          ("temperature_2m_min", PList [PInt 1]);
                          ("precipitation_sum", PList [PInt 0]);
                          ("wind_speed_10m_max", PList [PInt 12])])].

Definition clear_sky_now : pyval :=
  PDict [("current", PDict [("temperature_2m", PInt 21); ("weather_code", PInt 0)])].

Definition clear_sky_day : pyval :=
  PDict [("daily", PDict [("time", PList [PStr "2020-01-01"]);
                          ("weather_code", PList [PInt 0]);
                          ("temperature_2m_max", PList [PInt 5]);
                          ("temperature_2m_min", PList [PInt 1]);
                          ("precipitation_sum", PList [PInt 0]);
                          ("wind_speed_10m_max", PList [PInt 12])])].

(** ** The statements' vocabulary *)

(** A strict YYYY-MM-DD calendar date, as the specification words it: the
    zero-padded text of a day that exists, which is what [date.isoformat()]
    prints. *)
Definition digit_char (n : Z) : ascii := ascii_of_nat (48 + Z.to_nat n).

Definition pad2 (n : Z) : string :=
  String (digit_char (n / 10)) (String (digit_char (n mod 10)) EmptyString).

Definition pad4 (n : Z) : string :=
  String (digit_char (n / 1000)) (String (digit_char (n / 100 mod 10)) (pad2 (n mod 100))).

Definition isoformat (d : date) : string :=
  pad4 (year d) ++ "-" ++ pad2 (month d) ++ "-" ++ pad2 (day d).

Definition valid_date (d : date) : Prop :=
  (1 <= year d <= 9999 /\ 1 <= month d <= 12
   /\ 1 <= day d <= days_in_month (year d) (month d))%Z.




(** The texts that name a date, as the amended claim lists them: the year
    in four digits, a hyphen, the month, a hyphen and the day.  A digit of the
    year is any decimal digit; the month is written with two digits or, up to
    9, with one; the day likewise, or up to 9 with a space before its digit,
    and the second digit of a day from 10 to 29 is any decimal digit. *)
Fixpoint all_continuation (s : string) : bool :=
  match s with
  | EmptyString => true
  | String c s' => is_continuation c && all_continuation s'
  end.

(** The text is empty or starts with the first byte of a character. *)
Definition starts_plain (s : string) : bool :=
  match s with
  | EmptyString => true
  | String c _ => negb (is_continuation c)
  end.

(** The character [ch] is the digit [n]: the ASCII digit, or a non-ASCII
    character that the Unicode database lists with that value. *)
Definition spells_digit (py : builtins) (ch : string) (n : Z) : Prop :=
  ((0 <= n <= 9)%Z /\ ch = String (digit_char n) "")
  \/ exists c tail d,
       ch = String c tail /\ is_lead c = true /\ all_continuation tail = true
       /\ unicode_decimal py ch = Some d /\ n = decimal_value d.

Definition spells_year (py : builtins) (text : string) (y : Z) : Prop :=
  exists a b c d na nb nc nd,
    text = a ++ b ++ c ++ d
    /\ spells_digit py a na /\ spells_digit py b nb
    /\ spells_digit py c nc /\ spells_digit py d nd
    /\ y = (1000 * na + 100 * nb + 10 * nc + nd)%Z.

Definition spells_month (text : string) (m : Z) : Prop :=
  ((1 <= m <= 12)%Z /\ text = pad2 m)
  \/ ((1 <= m <= 9)%Z /\ text = String (digit_char m) "").

Definition spells_day (py : builtins) (text : string) (d : Z) : Prop :=
  ((1 <= d <= 31)%Z /\ text = pad2 d)
  \/ ((1 <= d <= 9)%Z
      /\ (text = String (digit_char d) "" \/ text = String " " (String (digit_char d) "")))
  \/ exists t u ch,
       (1 <= t <= 2)%Z /\ spells_digit py ch u
       /\ d = (10 * t + u)%Z /\ text = String (digit_char t) ch.

Definition spells_date (py : builtins) (text : string) (d : date) : Prop :=
  exists ytext mtext dtext,
    text = ytext ++ "-" ++ mtext ++ "-" ++ dtext
    /\ spells_year py ytext (year d)
    /\ spells_month mtext (month d)
    /\ spells_day py dtext (day d)
    /\ valid_date d.

(** The date [a] is the date [b] or a later one. *)
Definition on_or_after (a b : date) : Prop :=
  (year b < year a
   \/ (year a = year b
       /\ (month b < month a \/ (month a = month b /\ day b <= day a))))%Z.

(** The date [a] is strictly before the date [b]. *)
Definition before (a b : date) : Prop :=
  (year a < year b
   \/ (year a = year b
       /\ (month a < month b \/ (month a = month b /\ day a < day b))))%Z.

(** The alert rules as the specification lists them, each on its own: a
    rule contributes its line when its condition holds. *)
Definition rule (fires : bool) (line : string) : list string :=
  if fires then [line] else [].


(** A metric of the snapshot is a number or is absent. *)
Definition number_or_absent (v : pyval) : bool := is_none v || numeric v.

(** [d.get(k)] on the entries of a [dict]. *)
Definition field (kv : list (string * pyval)) (k : string) : pyval :=
  match lookup k kv with Some v => v | None => PNone end.

(** A value that can be a key of a [dict]: anything but a [list] or a [dict]. *)
Definition hashable (v : pyval) : bool :=
  match v with
  | PList _ | PDict _ => false
  | _ => true
  end.

(** The entry of a key is missing or is a [list]. *)
Definition list_or_missing (kv : list (string * pyval)) (k : string) : bool :=
  match lookup k kv with
  | None | Some (PList _) => true
  | Some _ => false
  end.

(** The entry of a key is missing or is a [list] with a first item. *)
Definition first_or_missing (kv : list (string * pyval)) (k : string) : bool :=
  match lookup k kv with
  | None | Some (PList (_ :: _)) => true
  | Some _ => false
  end.

(** [d.get(k, default)] on the entries of a [dict]. *)
Definition field_or (kv : list (string * pyval)) (k : string) (default : pyval) : pyval :=
  match lookup k kv with Some v => v | None => default end.

(** [d.get(k, [default])[0]] where the entry is missing or has a first item. *)
Definition first_or (kv : list (string * pyval)) (k : string) (default : pyval) : pyval :=
  match lookup k kv with
  | Some (PList (v :: _)) => v
  | _ => default
  end.

(** The world in which every body that tests false is replaced by a
    failure in transport. *)
Definition falsy_as_failed (env : world) : world :=
  {| today := today env;
     network := fun n url =>
       if truthy (fetch_result (network env n url)) then network env n url
       else TransportError |}.

(** The character [q] does not occur in [s]. *)
Fixpoint lacks (q : ascii) (s : string) : bool :=
  match s with
  | EmptyString => true
  | String c s' => negb (Ascii.eqb c q) && lacks q s'
  end.

(** A geocoding answer whose place is called after a marker, and the world
    that serves it for two lookups. *)
Definition marker_named_geocoding : pyval :=
  PDict [("results", PList [PDict [("name", PStr "Not Found Creek");
                                   ("country", PStr "Canada");
                                   ("latitude", PInt 50); ("longitude", PInt 2)]])].

Definition marker_named_env : world :=
  scripted_world (mkdate 2025 6 15)
    [ok_body marker_named_geocoding; ok_body sample_weather;
     ok_body sample_geocoding; ok_body sample_weather].

Definition marker_named_report : string :=
  Eval vm_compute in
    match fst (get_weather_by_city sample_builtins marker_named_env "Creek" []) with
    | Ok text => text
    | Raise _ => ""
    end.

(** * Properties *)

(** ** Strings *)

Lemma string_app_assoc (s t u : string) : (s ++ t) ++ u = s ++ (t ++ u).
Proof.
  induction s as [|c s IH]; simpl; [reflexivity|].
  now rewrite IH.
Qed.

Lemma append_cons (c : ascii) (s t : string) : String c s ++ t = String c (s ++ t).
Proof. reflexivity. Qed.

Lemma append_empty_l (t : string) : "" ++ t = t.
Proof. reflexivity. Qed.

Lemma append_empty_r (s : string) : s ++ "" = s.
Proof. induction s as [|c s IH]; simpl; [reflexivity|now rewrite IH]. Qed.

Lemma map_string_app (f : ascii -> ascii) (s t : string) :
  map_string f (s ++ t) = map_string f s ++ map_string f t.
Proof.
  induction s as [|c s IH]; simpl; [reflexivity|].
  now rewrite IH.
Qed.

Lemma lower_app (s t : string) : lower (s ++ t) = lower s ++ lower t.
Proof. apply map_string_app. Qed.

Lemma contains_app_r (needle s t : string) :
  contains needle t = true -> contains needle (s ++ t) = true.
Proof.
  intros H. induction s as [|c s IH]; simpl; [exact H|].
  destruct needle as [|a needle]; [reflexivity|].
  destruct (Ascii.ascii_dec a c); [|exact IH].
  destruct (String.prefix needle (s ++ t)); [reflexivity|exact IH].
Qed.

Lemma prefix_app (needle s t : string) :
  String.prefix needle s = true -> String.prefix needle (s ++ t) = true.
Proof.
  revert s. induction needle as [|a needle IH]; intros s H;
    [now destruct (s ++ t)|].
  destruct s as [|b s]; [discriminate H|]. simpl in *.
  destruct (ascii_dec a b); [now apply IH|discriminate H].
Qed.

Lemma contains_app_keeps (needle s t : string) :
  contains needle s = true -> contains needle (s ++ t) = true.
Proof.
  induction s as [|c s IH]; intros H.
  - destruct needle as [|a needle]; [now destruct t|].
    cbv in H. discriminate H.
  - rewrite append_cons.
    change (contains needle (String c s))
      with (if String.prefix needle (String c s) then true else contains needle s) in H.
    change (contains needle (String c (s ++ t)))
      with (if String.prefix needle (String c (s ++ t)) then true
            else contains needle (s ++ t)).
    destruct (String.prefix needle (String c s)) eqn:P.
    + apply (prefix_app needle (String c s) t) in P. rewrite append_cons in P.
      now rewrite P.
    + rewrite (IH H). now destruct (String.prefix needle (String c (s ++ t))).
Qed.

(** ** Characters *)

Lemma lead_is_plain (c : ascii) : is_lead c = true -> is_continuation c = false.
Proof.
  unfold is_lead, is_continuation. intros H. apply Nat.leb_le in H.
  apply andb_false_iff. right. apply Nat.leb_gt. lia.
Qed.

Lemma continuation_app (tail rest : string) :
  all_continuation tail = true -> starts_plain rest = true ->
  continuation (tail ++ rest) = (tail, rest).
Proof.
  intros Ht Hr. induction tail as [|c tail IH].
  - destruct rest as [|c r]; [reflexivity|]. simpl in *.
    now destruct (is_continuation c).
  - simpl in Ht. apply andb_true_iff in Ht as [Hc Ht].
    simpl. now rewrite Hc, (IH Ht).
Qed.

Lemma continuation_split (s tail rest : string) :
  continuation s = (tail, rest) -> s = tail ++ rest /\ all_continuation tail = true.
Proof.
  revert tail rest. induction s as [|c s IH]; intros tail rest; simpl.
  - intros H. injection H as <- <-. now split.
  - destruct (is_continuation c) eqn:Hc.
    + destruct (continuation s) as [t r]. intros H. injection H as <- <-.
      destruct (IH t r eq_refl) as [-> Ht]. split; [reflexivity|].
      simpl. now rewrite Hc.
    + intros H. injection H as <- <-. now split.
Qed.

(** ** The request helper *)

Lemma request_step {B : Type} (env : world) (url : string) (k : pyval -> IO B)
    (log : list string) :
  bindIO (make_openmeteo_request env url) k log
  = k (fetch_result (network env (List.length log) url)) (log ++ [url])%list.
Proof. reflexivity. Qed.

(** ** The day count of the forecast *)






(** ** Absence of a fetched body *)

Lemma lookup_failed_city_not_found (city_name : string) :
  lookup_failed (city_not_found city_name) = true.
Proof.
  unfold lookup_failed, city_not_found.
  rewrite !lower_app.
  replace (contains "not found" _) with true; [reflexivity|].
  symmetry. apply contains_app_r, contains_app_r. reflexivity.
Qed.

Lemma truthy_dict_with_entry (kv : list (string * pyval)) (k : string) (v : pyval) :
  lookup k kv = Some v -> truthy (PDict kv) = true.
Proof. destruct kv; [discriminate|reflexivity]. Qed.

Lemma city_lookup_absent (py : builtins) (env : world) (city_name : string)
    (log : list string) :
  fetch_result (network env (List.length log) (city_search_url city_name)) = PNone ->
  get_weather_by_city py env city_name log
  = (Ok (city_not_found city_name), (log ++ [city_search_url city_name])%list).
Proof.
  intros H. unfold get_weather_by_city. rewrite request_step, H. reflexivity.
Qed.

Lemma lookup_failed_unable_to_fetch (py : builtins) (name country : pyval) :
  lookup_failed (city_unable_to_fetch py name country) = true.
Proof.
  unfold lookup_failed, city_unable_to_fetch.
  rewrite !lower_app.
  replace (contains "unable to fetch" _) with true; [apply orb_true_r|].
  symmetry. apply contains_app_keeps. reflexivity.
Qed.

(** C3 as stated fails for [compare_weather_cities].  The tool looks up both
    cities before it examines either text.  Here the first request is
    answered with status 500, so the fetcher yields [None] and the first
    lookup returns its "not found" text; the second request brings a JSON
    string, on which the second lookup raises; the tool ends in that
    exception and returns no fallback text. *)
Lemma absent_fetch_before_a_fault :
  fetch_result (network (scripted_world (mkdate 2025 6 15)
                           [Response 500 None; ok_body (PStr "maintenance")])
                  0 (city_search_url "Paris")) = PNone
  /\ get_weather_by_city sample_builtins
       (scripted_world (mkdate 2025 6 15) [Response 500 None; ok_body (PStr "maintenance")])
       "Paris" []
     = (Ok "City 'Paris' not found. Please check the spelling and try again.",
        [city_search_url "Paris"])
  /\ compare_weather_cities sample_builtins
       (scripted_world (mkdate 2025 6 15) [Response 500 None; ok_body (PStr "maintenance")])
       "Paris" "Rome" []
     = (Raise AttributeError, [city_search_url "Paris"; city_search_url "Rome"]).
Proof. repeat split. Qed.

(** C3, amended: when the fetcher yields [None], each tool returns its
    fallback text and raises nothing, [compare_weather_cities] provided the
    lookup of the other city raises nothing of its own.  The fetcher itself
    never raises: it returns a value and logs the request, and a transport
    error, a status outside 2xx and a body that is not JSON all give [None].
    The fallback of [get_weather_by_city] depends on which of its two
    requests fails.  [compare_weather_cities] answers "Could not get weather
    data" for a city whose lookup returned one of these two fallbacks, the
    first city first, whichever request of whichever lookup failed; an
    exception of either lookup is the outcome of the tool. *)
Theorem absent_fetch_gives_fallback (py : builtins) (env : world) (log : list string) :
  let absent (n : nat) (url : string) := fetch_result (network env n url) = PNone in
  let n := List.length log in
  let fallback (city text : string) :=
    text = "City '" ++ city ++ "' not found. Please check the spelling and try again."
    \/ exists name country,
         text = "Unable to fetch weather data for " ++ py_str py name
                ++ ", " ++ py_str py country ++ "." in
  let marked (text : string) :=
    contains "not found" (lower text) || contains "unable to fetch" (lower text) in
  (forall url, exists v,
      make_openmeteo_request env url log = (Ok v, (log ++ [url])%list))
  /\ fetch_result TransportError = PNone
  /\ (forall status body,
        is_success status = false -> fetch_result (Response status body) = PNone)
  /\ (forall status, fetch_result (Response status None) = PNone)
  /\ (forall latitude longitude,
        absent n (current_weather_url py latitude longitude) ->
        get_current_weather py env latitude longitude log
        = (Ok "Unable to fetch current weather data for this location.",
           (log ++ [current_weather_url py latitude longitude])%list))
  /\ (forall query,
        absent n (search_url query) ->
        search_locations py env query log
        = (Ok ("No locations found for '" ++ query ++ "'"),
           (log ++ [search_url query])%list))
  /\ (forall latitude longitude days,
        absent n (forecast_url py latitude longitude (clamp_days days)) ->
        get_weather_forecast py env latitude longitude days log
        = (Ok "Unable to fetch forecast data for this location.",
           (log ++ [forecast_url py latitude longitude (clamp_days days)])%list))
  /\ (forall latitude longitude,
        absent n (alerts_url py latitude longitude) ->
        get_weather_alerts py env latitude longitude log
        = (Ok "Unable to fetch weather alert data for this location.",
           (log ++ [alerts_url py latitude longitude])%list))
  /\ (forall city_name,
        absent n (city_search_url city_name) ->
        get_weather_by_city py env city_name log
        = (Ok ("City '" ++ city_name
               ++ "' not found. Please check the spelling and try again."),
           (log ++ [city_search_url city_name])%list))
  /\ (forall city_name data results location,
        fetch_result (network env n (city_search_url city_name)) = PDict data ->
        lookup "results" data = Some results ->
        truthy results = true ->
        py_getitem results 0 = Ok (PDict location) ->
        is_none (field location "latitude") = false ->
        is_none (field location "longitude") = false ->
        let weather_url :=
          city_weather_url py (field location "latitude") (field location "longitude") in
        absent (S n) weather_url ->
        get_weather_by_city py env city_name log
        = (Ok ("Unable to fetch weather data for " ++ py_str py (field location "name")
               ++ ", " ++ py_str py (field location "country") ++ "."),
           (log ++ [city_search_url city_name; weather_url])%list))
  /\ (forall city1 city2 weather1 weather2 log1 log2,
        get_weather_by_city py env city1 log = (Ok weather1, log1) ->
        get_weather_by_city py env city2 log1 = (Ok weather2, log2) ->
        (fallback city1 weather1 ->
           compare_weather_cities py env city1 city2 log
           = (Ok ("Could not get weather data for " ++ city1 ++ ": " ++ weather1), log2))
        /\ (fallback city2 weather2 ->
            compare_weather_cities py env city1 city2 log
            = (Ok (if marked weather1
                   then "Could not get weather data for " ++ city1 ++ ": " ++ weather1
                   else "Could not get weather data for " ++ city2 ++ ": " ++ weather2),
               log2)))
  /\ (forall city1 city2 e log1,
        get_weather_by_city py env city1 log = (Raise e, log1) ->
        compare_weather_cities py env city1 city2 log = (Raise e, log1))
  /\ (forall city1 city2 weather1 e log1 log2,
        get_weather_by_city py env city1 log = (Ok weather1, log1) ->
        get_weather_by_city py env city2 log1 = (Raise e, log2) ->
        compare_weather_cities py env city1 city2 log = (Raise e, log2))
  /\ (forall latitude longitude date d,
        strptime py date = Ok d ->
        date_ge d (today env) = false ->
        absent n (archive_url py latitude longitude date) ->
        get_historical_weather py env latitude longitude date log
        = (Ok ("Unable to fetch historical weather data for " ++ date ++ "."),
           (log ++ [archive_url py latitude longitude date])%list)).
Proof.
  intros absent n fallback marked. subst absent n fallback. cbv beta.
  split; [intros url; eexists; reflexivity|].
  split; [reflexivity|].
  split; [intros status body H; unfold fetch_result; now rewrite H|].
  split; [intros status; unfold fetch_result; now destruct (is_success status)|].
  split; [intros latitude longitude H; unfold get_current_weather;
          rewrite request_step, H; reflexivity|].
  split; [intros query H; unfold search_locations;
          rewrite request_step, H; reflexivity|].
  split; [intros latitude longitude days H; unfold get_weather_forecast;
          rewrite request_step, H; reflexivity|].
  split; [intros latitude longitude H; unfold get_weather_alerts;
          rewrite request_step, H; reflexivity|].
  split; [intros city_name H; now apply city_lookup_absent|].
  split.
  { intros city_name data results location Hdata Hres Htrue Hitem Hlat Hlon url2 Habs.
    unfold get_weather_by_city.
    rewrite request_step, Hdata, (truthy_dict_with_entry _ _ _ Hres).
    cbn [negb]. unfold bindIO at 1, lift at 1, dict_get at 1. rewrite Hres, Htrue.
    cbn [negb]. unfold bindIO at 1, lift at 1. rewrite Hitem.
    unfold dict_get, lift, bindIO at 1 2 3 4. fold (field location "latitude").
    fold (field location "longitude"). fold (field location "name").
    fold (field location "country").
    rewrite Hlat, Hlon. cbn [orb].
    rewrite request_step, length_app. cbn [List.length].
    rewrite Nat.add_1_r. fold url2. rewrite Habs. cbn [truthy negb].
    unfold ret, city_unable_to_fetch. now rewrite <- app_assoc. }
  split.
  { intros city1 city2 weather1 weather2 log1 log2 H1 H2.
    unfold compare_weather_cities, bindIO. rewrite H1, H2.
    change (lookup_failed weather1) with (marked weather1).
    split.
    - intros F.
      replace (marked weather1) with true; [reflexivity|].
      symmetry. destruct F as [->|(name & country & ->)].
      + apply lookup_failed_city_not_found.
      + apply (lookup_failed_unable_to_fetch py name country).
    - intros F. destruct (marked weather1); [reflexivity|].
      replace (lookup_failed weather2) with true; [reflexivity|].
      symmetry. destruct F as [->|(name & country & ->)].
      + apply lookup_failed_city_not_found.
      + apply (lookup_failed_unable_to_fetch py name country). }
  split.
  { intros city1 city2 e log1 H1. unfold compare_weather_cities, bindIO. now rewrite H1. }
  split.
  { intros city1 city2 weather1 e log1 log2 H1 H2.
    unfold compare_weather_cities, bindIO. now rewrite H1, H2. }
  intros latitude longitude date d Hd Hge H. unfold get_historical_weather.
  rewrite Hd. unfold bindIO at 1, lift at 1. rewrite Hge, request_step, H.
  reflexivity.
Qed.

Lemma absent_fetch_gives_fallback_witness :
  get_current_weather sample_builtins
    (constant_world (mkdate 2025 6 15) (Response 500 None)) 0%float 0%float []
  = (Ok "Unable to fetch current weather data for this location.",
     [current_weather_url sample_builtins 0%float 0%float])
  /\ get_weather_by_city sample_builtins
       (scripted_world (mkdate 2025 6 15) [ok_body sample_geocoding]) "Paris" []
     = (Ok "Unable to fetch weather data for Paris, France.",
        [city_search_url "Paris";
         city_weather_url sample_builtins (PInt 49) (PInt 2)])
  /\ compare_weather_cities sample_builtins
       (scripted_world (mkdate 2025 6 15)
          [ok_body sample_geocoding; ok_body sample_weather; ok_body sample_geocoding])
       "Paris" "paris" []
     = (Ok ("Could not get weather data for paris: "
            ++ "Unable to fetch weather data for Paris, France."),
        (sample_log ++ [city_search_url "paris"; nth 1 sample_log ""])%list)
  /\ get_historical_weather sample_builtins
       (constant_world (mkdate 2025 6 15) TransportError) 0%float 0%float "2020-01-01" []
     = (Ok "Unable to fetch historical weather data for 2020-01-01.",
        [archive_url sample_builtins 0%float 0%float "2020-01-01"]).
Proof.
  split; [|split; [|split]].
  - destruct (absent_fetch_gives_fallback sample_builtins
                (constant_world (mkdate 2025 6 15) (Response 500 None)) [])
      as (_ & _ & _ & _ & H & _).
    apply H. reflexivity.
  - destruct (absent_fetch_gives_fallback sample_builtins
                (scripted_world (mkdate 2025 6 15) [ok_body sample_geocoding]) [])
      as (_ & _ & _ & _ & _ & _ & _ & _ & _ & H & _).
    exact (H "Paris" [("results", PList [PDict sample_location])]
             (PList [PDict sample_location]) sample_location
             eq_refl eq_refl eq_refl eq_refl eq_refl eq_refl eq_refl).
  - destruct (absent_fetch_gives_fallback sample_builtins
                (scripted_world (mkdate 2025 6 15)
                   [ok_body sample_geocoding; ok_body sample_weather;
                    ok_body sample_geocoding]) [])
      as (_ & _ & _ & _ & _ & _ & _ & _ & _ & _ & H & _).
    exact (proj2 (H "Paris" "paris" sample_report
                    "Unable to fetch weather data for Paris, France."
                    sample_log
                    (sample_log ++ [city_search_url "paris"; nth 1 sample_log ""])%list
                    eq_refl eq_refl)
             (or_intror (ex_intro _ (PStr "Paris")
                           (ex_intro _ (PStr "France") eq_refl)))).
  - destruct (absent_fetch_gives_fallback sample_builtins
                (constant_world (mkdate 2025 6 15) TransportError) [])
      as (_ & _ & _ & _ & _ & _ & _ & _ & _ & _ & _ & _ & _ & H).
    apply (H 0%float 0%float "2020-01-01" (mkdate 2020 1 1)); reflexivity.
Defined.

(** ** Comparing two cities *)
















(** ** Coordinates of a match *)




(** ** Alerts *)

Lemma float_cold_is_not_hot (f : float) :
  (f <=? float_of_const (-20))%float = true ->
  (float_of_const 35 <=? f)%float = false.
Proof.
  rewrite !FloatAxioms.leb_spec.
  replace (Prim2SF (float_of_const 35))
    with (S754_finite false 4925812092436480 (-47)) by (vm_compute; reflexivity).
  replace (Prim2SF (float_of_const (-20)))
    with (S754_finite true 5629499534213120 (-48)) by (vm_compute; reflexivity).
  generalize (Prim2SF f). intros [s|s| |s m e]; unfold SFleb, SFcompare.
  - discriminate.
  - destruct s; [reflexivity|discriminate].
  - discriminate.
  - destruct s; [reflexivity|discriminate].
Qed.

Lemma cold_is_not_hot (v : pyval) : le_const v (-20) = true -> ge_const v 35 = false.
Proof.
  destruct v as [|b|z|f|s|l|kv]; try reflexivity; unfold le_const, ge_const.
  - destruct b; discriminate.
  - intros H. apply Z.leb_le in H. apply Z.leb_gt. lia.
  - apply float_cold_is_not_hot.
Qed.

(** One threshold rule of the source against the rule of the specification. *)
Lemma threshold_step (v : pyval) (c : Z) (line : string) (alerts : list string) :
  number_or_absent v = true ->
  (if negb (is_none v) then
     fires <- py_ge v c ;;
     if fires then Ok (append alerts line) else Ok alerts
   else Ok alerts)
  = Ok (alerts ++ rule (ge_const v c) line)%list.
Proof.
  intros H. destruct v as [|b|z|f|s|l|kv]; try discriminate H;
    unfold py_ge, is_none, numeric, negb, bind, append, rule.
  - now rewrite app_nil_r.
  - destruct (ge_const (PBool b) c); [reflexivity|now rewrite app_nil_r].
  - destruct (ge_const (PInt z) c); [reflexivity|now rewrite app_nil_r].
  - destruct (ge_const (PFloat f) c); [reflexivity|now rewrite app_nil_r].
Qed.

Lemma temperature_step (v : pyval) (alerts : list string) :
  number_or_absent v = true ->
  (if negb (is_none v) then
     hot <- py_ge v 35 ;;
     if hot then Ok (append alerts HEAT_WARNING)
     else
       cold <- py_le v (-20) ;;
       if cold then Ok (append alerts COLD_WARNING) else Ok alerts
   else Ok alerts)
  = Ok (alerts ++ rule (ge_const v 35) HEAT_WARNING
               ++ rule (le_const v (-20)) COLD_WARNING)%list.
Proof.
  intros H.
  assert (Hex := cold_is_not_hot v).
  destruct v as [|b|z|f|s|l|kv]; try discriminate H;
    unfold py_ge, py_le, is_none, numeric, negb, bind, append, rule.
  - now rewrite app_nil_r.
  - destruct (le_const (PBool b) (-20)); [rewrite Hex by reflexivity; reflexivity|].
    destruct (ge_const (PBool b) 35); [reflexivity|now rewrite app_nil_r].
  - destruct (le_const (PInt z) (-20)); [rewrite Hex by reflexivity; reflexivity|].
    destruct (ge_const (PInt z) 35); [reflexivity|now rewrite app_nil_r].
  - destruct (le_const (PFloat f) (-20)); [rewrite Hex by reflexivity; reflexivity|].
    destruct (ge_const (PFloat f) 35); [reflexivity|now rewrite app_nil_r].
Qed.






(** ** The hourly section *)

Lemma alerts_report_reads_current (data1 data2 : list (string * pyval)) :
  lookup "current" data1 = lookup "current" data2 ->
  alerts_report (PDict data1) = alerts_report (PDict data2).
Proof.
  intros H. unfold alerts_report, dict_get at 1 6. now rewrite H.
Qed.

Lemma alerts_of_bodies_with_same_current (py : builtins) (env1 env2 : world)
    (latitude longitude : float) (log : list string)
    (data1 data2 : list (string * pyval)) :
  fetch_result (network env1 (List.length log) (alerts_url py latitude longitude))
  = PDict data1 ->
  fetch_result (network env2 (List.length log) (alerts_url py latitude longitude))
  = PDict data2 ->
  lookup "current" data1 = lookup "current" data2 ->
  truthy (PDict data1) = true ->
  truthy (PDict data2) = true ->
  get_weather_alerts py env1 latitude longitude log
  = get_weather_alerts py env2 latitude longitude log.
Proof.
  intros H1 H2 Hcur T1 T2. unfold get_weather_alerts.
  rewrite !request_step, H1, H2, T1, T2.
  cbn [negb]. unfold lift. now rewrite (alerts_report_reads_current _ _ Hcur).
Qed.

(** C8 as stated fails.  The empty object and an object that holds an
    [hourly] section and nothing else agree on [current], which neither has,
    and differ in [hourly] only; yet the first is answered as a failed fetch
    and the second with the no-alerts message. *)
Lemma hourly_alone_changes_the_answer :
  lookup "current" [] = lookup "current" [("hourly", PDict [("temperature_2m", PList [])])]
  /\ get_weather_alerts sample_builtins
       (constant_world (mkdate 2025 6 15) (ok_body (PDict []))) 0%float 0%float []
     = (Ok "Unable to fetch weather alert data for this location.",
        [alerts_url sample_builtins 0%float 0%float])
  /\ get_weather_alerts sample_builtins
       (constant_world (mkdate 2025 6 15)
          (ok_body (PDict [("hourly", PDict [("temperature_2m", PList [])])])))
       0%float 0%float []
     = (Ok "✅ No weather alerts or warnings for this location.",
        [alerts_url sample_builtins 0%float 0%float]).
Proof. repeat split. Qed.

(** C8, amended: two bodies of [get_weather_alerts] that are objects with at
    least one entry each and agree on the [current] section, its absence
    included, give the same outcome whatever else they hold: the [hourly]
    section, present or not, has no part in the answer.  An object without
    any entry is answered as a failed fetch. *)
Theorem alerts_ignore_hourly (py : builtins) (env1 env2 : world)
    (latitude longitude : float) (log : list string)
    (data1 data2 : list (string * pyval)) :
  let url := alerts_url py latitude longitude in
  fetch_result (network env1 (List.length log) url) = PDict data1 ->
  fetch_result (network env2 (List.length log) url) = PDict data2 ->
  (data1 <> [] -> data2 <> [] ->
   lookup "current" data1 = lookup "current" data2 ->
   get_weather_alerts py env1 latitude longitude log
   = get_weather_alerts py env2 latitude longitude log)
  /\ (data1 = [] ->
      get_weather_alerts py env1 latitude longitude log
      = (Ok "Unable to fetch weather alert data for this location.",
         (log ++ [url])%list)).
Proof.
  intros url H1 H2. split.
  - intros N1 N2 Hcur.
    apply (alerts_of_bodies_with_same_current py env1 env2 _ _ _ data1 data2 H1 H2 Hcur).
    + now destruct data1.
    + now destruct data2.
  - intros ->. unfold get_weather_alerts. rewrite request_step. fold url.
    now rewrite H1.
Qed.

Lemma alerts_ignore_hourly_witness :
  get_weather_alerts sample_builtins
    (constant_world (mkdate 2025 6 15)
       (ok_body (PDict [("current", PDict sample_snapshot);
                        ("hourly", PDict [("temperature_2m", PList [PInt 1; PInt 2])])])))
    0%float 0%float []
  = get_weather_alerts sample_builtins
      (constant_world (mkdate 2025 6 15)
         (ok_body (PDict [("hourly", PStr "anything"); ("current", PDict sample_snapshot)])))
      0%float 0%float [].
Proof.
  apply (proj1 (alerts_ignore_hourly sample_builtins
           (constant_world (mkdate 2025 6 15)
              (ok_body (PDict [("current", PDict sample_snapshot);
                               ("hourly",
                                PDict [("temperature_2m", PList [PInt 1; PInt 2])])])))
           (constant_world (mkdate 2025 6 15)
              (ok_body (PDict [("hourly", PStr "anything");
                               ("current", PDict sample_snapshot)])))
           0%float 0%float []
           [("current", PDict sample_snapshot);
            ("hourly", PDict [("temperature_2m", PList [PInt 1; PInt 2])])]
           [("hourly", PStr "anything"); ("current", PDict sample_snapshot)]
           eq_refl eq_refl)).
  - discriminate.
  - discriminate.
  - reflexivity.
Defined.

(** ** Dates *)

Lemma date_ge_true_iff (a b : date) : date_ge a b = true <-> on_or_after a b.
Proof.
  unfold date_ge, on_or_after.
  destruct (Z.compare_spec (year a) (year b));
    destruct (Z.compare_spec (month a) (month b));
    rewrite ?Z.leb_le; intuition (try discriminate; try lia).
Qed.

Lemma date_ge_false_iff (a b : date) : date_ge a b = false <-> before a b.
Proof.
  unfold date_ge, before.
  destruct (Z.compare_spec (year a) (year b));
    destruct (Z.compare_spec (month a) (month b));
    rewrite ?Z.leb_gt; intuition (try discriminate; try lia).
Qed.

Lemma bind_ok {A B : Type} (m : pyres A) (k : A -> pyres B) (b : B) :
  bind m k = Ok b -> exists a, m = Ok a /\ k a = Ok b.
Proof.
  destruct m as [a|e]; simpl; [|discriminate]. intros H. now exists a.
Qed.

Lemma historical_report_is_not_the_format_message (py : builtins) (date : string)
    (data : pyval) :
  historical_report py date data <> Ok INVALID_DATE_FORMAT.
Proof.
  unfold historical_report. intros H.
  apply bind_ok in H as (daily & _ & H).
  apply bind_ok in H as (time & _ & H).
  destruct (negb (truthy time)); [discriminate H|].
  do 6 (apply bind_ok in H as (? & _ & H)).
  discriminate H.
Qed.

(** C6: for a date [strptime] accepts, [get_historical_weather] answers the
    fixed past-dates-only message and requests nothing when the date is
    today or later; for a date strictly before today it makes the one request
    to the archive, for that date, and answers from what the fetch returns. *)
Theorem historical_needs_a_past_date (py : builtins) (env : world)
    (latitude longitude : float) (text : string) (d : date) (log : list string) :
  strptime py text = Ok d ->
  (on_or_after d (today env) ->
     get_historical_weather py env latitude longitude text log
     = (Ok "Historical weather data is only available for past dates.", log))
  /\ (before d (today env) ->
     get_historical_weather py env latitude longitude text log
     = (let data := fetch_result (network env (List.length log)
                                    (archive_url py latitude longitude text)) in
        if truthy data then historical_report py text data
        else Ok ("Unable to fetch historical weather data for " ++ text ++ "."),
        (log ++ [archive_url py latitude longitude text])%list)).
Proof.
  intros Hd. unfold get_historical_weather. rewrite Hd. split.
  - intros H. apply date_ge_true_iff in H.
    unfold bindIO at 1, lift at 1. now rewrite H.
  - intros H. apply date_ge_false_iff in H.
    unfold bindIO at 1, lift at 1. rewrite H, request_step.
    cbv zeta. now destruct (truthy _).
Qed.

Lemma historical_needs_a_past_date_witness :
  strptime sample_builtins "2025-06-15" = Ok (mkdate 2025 6 15)
  /\ on_or_after (mkdate 2025 6 15) (mkdate 2025 6 15)
  /\ get_historical_weather sample_builtins sample_env 0%float 0%float "2025-06-15" []
     = (Ok "Historical weather data is only available for past dates.", []).
Proof.
  split; [reflexivity|].
  assert (H : on_or_after (mkdate 2025 6 15) (mkdate 2025 6 15))
    by (unfold on_or_after; simpl; lia).
  split; [exact H|].
  exact (proj1 (historical_needs_a_past_date sample_builtins sample_env
                  0%float 0%float "2025-06-15" (mkdate 2025 6 15) [] eq_refl) H).
Defined.

(** *** The texts [strptime] accepts *)

Lemma digit_char_ok (n : Z) :
  (0 <= n <= 9)%Z -> is_digit (digit_char n) = true /\ digit_value (digit_char n) = n.
Proof.
  intros H. assert (Hk : (Z.to_nat n <= 9)%nat) by lia.
  replace n with (Z.of_nat (Z.to_nat n)) by lia.
  revert Hk. generalize (Z.to_nat n) as k. clear. intros k Hk.
  do 10 (destruct k as [|k]; [split; reflexivity|]). lia.
Qed.

Lemma is_digit_digit_char (c : ascii) :
  is_digit c = true -> c = digit_char (digit_value c) /\ (0 <= digit_value c <= 9)%Z.
Proof.
  destruct c as [[] [] [] [] [] [] [] []]; vm_compute; intros H;
    try discriminate H; clear H; split; try reflexivity; split; discriminate.
Qed.

Lemma char_between_is_digit (lo hi c : ascii) :
  (48 <= nat_of_ascii lo)%nat -> (nat_of_ascii hi <= 57)%nat ->
  char_between lo hi c = true -> is_digit c = true.
Proof.
  unfold is_digit, char_between. change (nat_of_ascii "0") with 48%nat.
  change (nat_of_ascii "9") with 57%nat. intros Hlo Hhi H.
  apply andb_true_iff in H as [H1 H2]. apply Nat.leb_le in H1. apply Nat.leb_le in H2.
  apply andb_true_iff. split; apply Nat.leb_le; lia.
Qed.

Lemma digit_value_between (lo hi c : ascii) :
  (48 <= nat_of_ascii lo)%nat ->
  char_between lo hi c = true ->
  (Z.of_nat (nat_of_ascii lo) - 48 <= digit_value c <= Z.of_nat (nat_of_ascii hi) - 48)%Z.
Proof.
  unfold char_between, digit_value. intros Hlo H.
  apply andb_true_iff in H as [H1 H2].
  apply Nat.leb_le in H1. apply Nat.leb_le in H2. lia.
Qed.

Lemma digit_is_plain (c : ascii) : is_digit c = true -> is_continuation c = false.
Proof.
  unfold is_digit, char_between, is_continuation.
  change (nat_of_ascii "9") with 57%nat. intros H.
  apply andb_true_iff in H as [_ H]. apply Nat.leb_le in H.
  apply andb_false_iff. left. apply Nat.leb_gt. lia.
Qed.

Lemma lead_is_no_digit (c : ascii) : is_lead c = true -> is_digit c = false.
Proof.
  unfold is_lead, is_digit, char_between. change (nat_of_ascii "9") with 57%nat.
  intros H. apply Nat.leb_le in H.
  apply andb_false_iff. right. apply Nat.leb_gt. lia.
Qed.

Lemma spells_digit_range (py : builtins) (ch : string) (n : Z) :
  spells_digit py ch n -> (0 <= n <= 9)%Z.
Proof.
  intros [[H _]|(c & tail & d & _ & _ & _ & _ & ->)]; [exact H|].
  destruct d; cbn [decimal_value]; lia.
Qed.

Lemma spells_digit_starts_plain (py : builtins) (ch rest : string) (n : Z) :
  spells_digit py ch n -> starts_plain (ch ++ rest) = true.
Proof.
  intros [[H ->]|(c & tail & d & -> & L & _)]; rewrite append_cons; cbn [starts_plain].
  - now rewrite (digit_is_plain _ (proj1 (digit_char_ok n H))).
  - now rewrite (lead_is_plain c L).
Qed.

Lemma match_digit_complete (py : builtins) (ch rest : string) (n : Z) :
  spells_digit py ch n -> starts_plain rest = true ->
  match_digit py (ch ++ rest) = [(n, rest)].
Proof.
  intros [[H ->]|(c & tail & d & -> & L & T & U & ->)] P.
  - destruct (digit_char_ok n H) as [D V].
    rewrite append_cons, append_empty_l. cbn [match_digit]. now rewrite D, V.
  - rewrite append_cons. cbn [match_digit].
    rewrite (lead_is_no_digit c L), L, (continuation_app tail rest T P).
    now rewrite U.
Qed.

Lemma match_digit_sound (py : builtins) (s rest : string) (n : Z) :
  In (n, rest) (match_digit py s) -> exists ch, s = ch ++ rest /\ spells_digit py ch n.
Proof.
  destruct s as [|a s]; [intros []|]. simpl.
  destruct (is_digit a) eqn:D.
  - intros [H|[]]. injection H as <- <-.
    destruct (is_digit_digit_char a D) as [E R].
    exists (String a ""). split; [reflexivity|]. left. split; [exact R|]. now rewrite <- E.
  - destruct (is_lead a) eqn:L; [|intros []].
    destruct (continuation s) as [tail r] eqn:C.
    destruct (unicode_decimal py (String a tail)) as [d|] eqn:U; [|intros []].
    intros [H|[]]. injection H as <- <-.
    destruct (continuation_split s tail r C) as [-> T].
    exists (String a tail). split; [reflexivity|]. right.
    exists a, tail, d. repeat split; assumption.
Qed.

Lemma match_Y_complete (py : builtins) (ytext rest : string) (y : Z) :
  spells_year py ytext y -> starts_plain rest = true ->
  match_Y py (ytext ++ rest) = [(y, rest)].
Proof.
  intros (a & b & c & d & na & nb & nc & nd & -> & A & B & C & D & ->) P.
  rewrite !string_app_assoc. unfold match_Y.
  rewrite (match_digit_complete py a _ na A)
    by (apply (spells_digit_starts_plain py b _ nb B)).
  cbn [flat_map fst snd].
  rewrite (match_digit_complete py b _ nb B)
    by (apply (spells_digit_starts_plain py c _ nc C)).
  cbn [flat_map fst snd].
  rewrite (match_digit_complete py c _ nc C)
    by (apply (spells_digit_starts_plain py d _ nd D)).
  cbn [flat_map fst snd].
  rewrite (match_digit_complete py d _ nd D P).
  reflexivity.
Qed.

Lemma match_Y_sound (py : builtins) (s rest : string) (y : Z) :
  In (y, rest) (match_Y py s) ->
  exists ytext, s = ytext ++ rest /\ spells_year py ytext y.
Proof.
  unfold match_Y. intros H.
  apply in_flat_map in H as ([na r1] & HA & H).
  apply in_flat_map in H as ([nb r2] & HB & H).
  apply in_flat_map in H as ([nc r3] & HC & H).
  apply in_map_iff in H as ([nd r4] & E & HD).
  cbn [fst snd] in *. injection E as <- <-.
  apply match_digit_sound in HA as (a & -> & A).
  apply match_digit_sound in HB as (b & -> & B).
  apply match_digit_sound in HC as (c & -> & C).
  apply match_digit_sound in HD as (d & -> & D).
  exists (a ++ b ++ c ++ d). split; [now rewrite !string_app_assoc|].
  exists a, b, c, d, na, nb, nc, nd. repeat split; assumption.
Qed.

Lemma two_digits_pad2 (a b : Z) :
  (0 <= a <= 9)%Z -> (0 <= b <= 9)%Z ->
  String (digit_char a) (String (digit_char b) "") = pad2 (10 * a + b).
Proof.
  intros Ha Hb. unfold pad2.
  replace ((10 * a + b) / 10)%Z with a by (Z.div_mod_to_equations; lia).
  replace ((10 * a + b) mod 10)%Z with b by (Z.div_mod_to_equations; lia).
  reflexivity.
Qed.

Lemma match_one_sound (lo hi : ascii) (s rest : string) (v : Z) :
  (48 <= nat_of_ascii lo)%nat -> (nat_of_ascii hi <= 57)%nat ->
  In (v, rest) (match_one lo hi s) ->
  s = String (digit_char v) rest
  /\ (Z.of_nat (nat_of_ascii lo) - 48 <= v <= Z.of_nat (nat_of_ascii hi) - 48)%Z.
Proof.
  intros Hlo Hhi. unfold match_one. destruct s as [|a s]; [intros []|].
  destruct (char_between lo hi a) eqn:A; [|intros []].
  intros [H|[]]. injection H as <- <-.
  destruct (is_digit_digit_char a (char_between_is_digit lo hi a Hlo Hhi A)) as [E _].
  split; [now rewrite <- E|now apply digit_value_between].
Qed.

Lemma match_two_sound (lo1 hi1 lo2 hi2 : ascii) (s rest : string) (v : Z) :
  (48 <= nat_of_ascii lo1)%nat -> (nat_of_ascii hi1 <= 57)%nat ->
  (48 <= nat_of_ascii lo2)%nat -> (nat_of_ascii hi2 <= 57)%nat ->
  In (v, rest) (match_two lo1 hi1 lo2 hi2 s) ->
  s = pad2 v ++ rest
  /\ (10 * (Z.of_nat (nat_of_ascii lo1) - 48) + (Z.of_nat (nat_of_ascii lo2) - 48) <= v
      <= 10 * (Z.of_nat (nat_of_ascii hi1) - 48) + (Z.of_nat (nat_of_ascii hi2) - 48))%Z.
Proof.
  intros L1 H1 L2 H2. unfold match_two.
  destruct s as [|a [|b s]]; try (intros []).
  destruct (char_between lo1 hi1 a) eqn:A; [|intros []].
  destruct (char_between lo2 hi2 b) eqn:B; [|intros []].
  intros [H|[]]. apply (f_equal snd) in H as R. apply (f_equal fst) in H.
  cbn [fst snd] in *. subst.
  destruct (is_digit_digit_char a (char_between_is_digit lo1 hi1 a L1 H1 A)) as [Ea Ra].
  destruct (is_digit_digit_char b (char_between_is_digit lo2 hi2 b L2 H2 B)) as [Eb Rb].
  pose proof (digit_value_between lo1 hi1 a L1 A).
  pose proof (digit_value_between lo2 hi2 b L2 B).
  split; [|lia].
  rewrite <- (two_digits_pad2 _ _ Ra Rb), <- Ea, <- Eb. reflexivity.
Qed.

Lemma match_m_padded (m : Z) (rest : string) :
  (1 <= m <= 12)%Z ->
  exists others, match_m (pad2 m ++ rest) = (m, rest) :: others.
Proof.
  intros H. assert (P : (1 <= Z.to_nat m)%nat) by lia. revert P.
  assert (Hk : (Z.to_nat m <= 12)%nat) by lia.
  replace m with (Z.of_nat (Z.to_nat m)) by lia.
  revert Hk. generalize (Z.to_nat m) as k. clear. intros k Hk P.
  destruct k as [|k]; [lia|].
  do 12 (destruct k as [|k]; [eexists; reflexivity|]). lia.
Qed.

Lemma match_m_single (m : Z) (rest : string) :
  (1 <= m <= 9)%Z ->
  match_m (String (digit_char m) (String "-" rest)) = [(m, String "-" rest)].
Proof.
  intros H. assert (P : (1 <= Z.to_nat m)%nat) by lia. revert P.
  assert (Hk : (Z.to_nat m <= 9)%nat) by lia.
  replace m with (Z.of_nat (Z.to_nat m)) by lia.
  revert Hk. generalize (Z.to_nat m) as k. clear. intros k Hk P.
  destruct k as [|k]; [lia|].
  do 9 (destruct k as [|k]; [reflexivity|]). lia.
Qed.

Lemma match_m_complete (mtext rest : string) (m : Z) :
  spells_month mtext m ->
  exists others, match_m (mtext ++ String "-" rest) = (m, String "-" rest) :: others.
Proof.
  intros [[H ->]|[H ->]]; [now apply match_m_padded|].
  exists []. now apply match_m_single.
Qed.

Lemma match_m_sound (s rest : string) (m : Z) :
  In (m, rest) (match_m s) -> exists mtext, s = mtext ++ rest /\ spells_month mtext m.
Proof.
  unfold match_m. rewrite !in_app_iff. intros [H|[H|H]].
  - apply match_two_sound in H as [-> R]; try (cbv; lia).
    exists (pad2 m). split; [reflexivity|]. left. split; [|reflexivity].
    change (Z.of_nat (nat_of_ascii "1")) with 49%Z in R.
    change (Z.of_nat (nat_of_ascii "0")) with 48%Z in R.
    change (Z.of_nat (nat_of_ascii "2")) with 50%Z in R. lia.
  - apply match_two_sound in H as [-> R]; try (cbv; lia).
    exists (pad2 m). split; [reflexivity|]. left. split; [|reflexivity].
    change (Z.of_nat (nat_of_ascii "1")) with 49%Z in R.
    change (Z.of_nat (nat_of_ascii "0")) with 48%Z in R.
    change (Z.of_nat (nat_of_ascii "9")) with 57%Z in R. lia.
  - apply match_one_sound in H as [-> R]; try (cbv; lia).
    exists (String (digit_char m) ""). split; [reflexivity|]. right. split; [|reflexivity].
    change (Z.of_nat (nat_of_ascii "1")) with 49%Z in R.
    change (Z.of_nat (nat_of_ascii "9")) with 57%Z in R. lia.
Qed.

Lemma match_d_padded (py : builtins) (d : Z) (rest : string) :
  (1 <= d <= 31)%Z ->
  exists others, match_d py (pad2 d ++ rest) = (d, rest) :: others.
Proof.
  intros H. assert (P : (1 <= Z.to_nat d)%nat) by lia. revert P.
  assert (Hk : (Z.to_nat d <= 31)%nat) by lia.
  replace d with (Z.of_nat (Z.to_nat d)) by lia.
  revert Hk. generalize (Z.to_nat d) as k. clear. intros k Hk P.
  destruct k as [|k]; [lia|].
  do 31 (destruct k as [|k]; [eexists; reflexivity|]). lia.
Qed.

Lemma match_d_single (py : builtins) (d : Z) :
  (1 <= d <= 9)%Z ->
  match_d py (String (digit_char d) "") = [(d, "")]
  /\ match_d py (String " " (String (digit_char d) "")) = [(d, "")].
Proof.
  intros H. assert (P : (1 <= Z.to_nat d)%nat) by lia. revert P.
  assert (Hk : (Z.to_nat d <= 9)%nat) by lia.
  replace d with (Z.of_nat (Z.to_nat d)) by lia.
  revert Hk. generalize (Z.to_nat d) as k. clear. intros k Hk P.
  destruct k as [|k]; [lia|].
  do 9 (destruct k as [|k]; [split; reflexivity|]). lia.
Qed.

Lemma match_d_complete (py : builtins) (dtext : string) (d : Z) :
  spells_day py dtext d -> exists others, match_d py dtext = (d, "") :: others.
Proof.
  intros [[H ->]|[[H [-> | ->]]|(t & u & ch & Ht & Hu & -> & ->)]].
  - destruct (match_d_padded py d "" H) as [others E]. exists others.
    rewrite <- E. unfold pad2. reflexivity.
  - exists []. apply (match_d_single py d H).
  - exists []. apply (match_d_single py d H).
  - pose proof (match_digit_complete py ch "" u Hu eq_refl) as E.
    rewrite append_empty_r in E.
    assert (C : exists c tail, ch = String c tail).
    { destruct Hu as [[_ ->]|(c & tail & _ & -> & _)]; eauto. }
    destruct C as (c & tail & ->).
    assert (T : t = 1%Z \/ t = 2%Z) by lia.
    destruct T as [-> | ->]; eexists; unfold match_d, match_then_digit.
    + change (digit_char 1) with "1"%char.
      change (match_two "3" "3" "0" "1" (String "1" (String c tail)))
        with (@nil (Z * string)).
      change (match_one "1" "2" (String "1" (String c tail)))
        with [(1%Z, String c tail)].
      cbn [flat_map app map fst snd]. rewrite E. reflexivity.
    + change (digit_char 2) with "2"%char.
      change (match_two "3" "3" "0" "1" (String "2" (String c tail)))
        with (@nil (Z * string)).
      change (match_one "1" "2" (String "2" (String c tail)))
        with [(2%Z, String c tail)].
      cbn [flat_map app map fst snd]. rewrite E. reflexivity.
Qed.

Lemma match_char_sound (c : ascii) (s rest : string) :
  In rest (match_char c s) -> s = String c rest.
Proof.
  unfold match_char. destruct s as [|a s]; [intros []|].
  destruct (Ascii.eqb a c) eqn:A; [|intros []].
  apply Ascii.eqb_eq in A. subst a. now intros [<-|[]].
Qed.

Lemma match_then_digit_sound (py : builtins) (s rest : string) (d : Z) :
  In (d, rest) (match_then_digit py "1" "2" s) ->
  exists dtext, s = dtext ++ rest /\ spells_day py dtext d.
Proof.
  unfold match_then_digit. intros H.
  apply in_flat_map in H as ([t r1] & HT & H).
  apply in_map_iff in H as ([u r2] & E & HU).
  cbn [fst snd] in *. injection E as <- <-.
  apply match_one_sound in HT as [-> R]; try (cbv; lia).
  change (Z.of_nat (nat_of_ascii "1")) with 49%Z in R.
  change (Z.of_nat (nat_of_ascii "2")) with 50%Z in R.
  apply match_digit_sound in HU as (ch & -> & U).
  exists (String (digit_char t) ch). split; [reflexivity|].
  right. right. exists t, u, ch. repeat split; try assumption; lia.
Qed.

Lemma match_d_sound (py : builtins) (s rest : string) (d : Z) :
  In (d, rest) (match_d py s) -> exists dtext, s = dtext ++ rest /\ spells_day py dtext d.
Proof.
  unfold match_d. rewrite !in_app_iff, in_flat_map.
  intros [H|[H|[H|[H|(s' & Hs & H)]]]].
  - apply match_two_sound in H as [-> R]; try (cbv; lia).
    exists (pad2 d). split; [reflexivity|]. left. split; [|reflexivity].
    change (Z.of_nat (nat_of_ascii "3")) with 51%Z in R.
    change (Z.of_nat (nat_of_ascii "0")) with 48%Z in R.
    change (Z.of_nat (nat_of_ascii "1")) with 49%Z in R. lia.
  - now apply match_then_digit_sound.
  - apply match_two_sound in H as [-> R]; try (cbv; lia).
    exists (pad2 d). split; [reflexivity|]. left. split; [|reflexivity].
    change (Z.of_nat (nat_of_ascii "1")) with 49%Z in R.
    change (Z.of_nat (nat_of_ascii "0")) with 48%Z in R.
    change (Z.of_nat (nat_of_ascii "9")) with 57%Z in R. lia.
  - apply match_one_sound in H as [-> R]; try (cbv; lia).
    exists (String (digit_char d) ""). split; [reflexivity|].
    right. left. split; [|now left].
    change (Z.of_nat (nat_of_ascii "1")) with 49%Z in R.
    change (Z.of_nat (nat_of_ascii "9")) with 57%Z in R. lia.
  - apply match_char_sound in Hs as ->.
    apply match_one_sound in H as [-> R]; try (cbv; lia).
    exists (String " " (String (digit_char d) "")). split; [reflexivity|].
    right. left. split; [|now right].
    change (Z.of_nat (nat_of_ascii "1")) with 49%Z in R.
    change (Z.of_nat (nat_of_ascii "9")) with 57%Z in R. lia.
Qed.

Lemma matches_sound (py : builtins) (s rest : string) (y m d : Z) :
  In (y, m, d, rest) (matches py s) ->
  exists ytext mtext dtext,
    s = ytext ++ "-" ++ mtext ++ "-" ++ dtext ++ rest
    /\ spells_year py ytext y /\ spells_month mtext m /\ spells_day py dtext d.
Proof.
  unfold matches. intros H.
  apply in_flat_map in H as ([y' r1] & HY & H).
  apply in_flat_map in H as (s1 & H1 & H).
  apply in_flat_map in H as ([m' r2] & HM & H).
  apply in_flat_map in H as (s2 & H2 & H).
  apply in_map_iff in H as ([d' r3] & E & HD).
  cbn [fst snd] in *. injection E as <- <- <- <-.
  apply match_Y_sound in HY as (ytext & -> & Y).
  apply match_char_sound in H1 as ->.
  apply match_m_sound in HM as (mtext & -> & M).
  apply match_char_sound in H2 as ->.
  apply match_d_sound in HD as (dtext & -> & D).
  exists ytext, mtext, dtext. repeat split; assumption.
Qed.

Lemma days_in_month_le_31 (y m : Z) : (days_in_month y m <= 31)%Z.
Proof.
  unfold days_in_month.
  destruct (m =? 2)%Z; [destruct (is_leap y); lia|].
  destruct ((m =? 4) || (m =? 6) || (m =? 9) || (m =? 11))%Z; lia.
Qed.

Lemma spells_year_range (py : builtins) (ytext : string) (y : Z) :
  spells_year py ytext y -> (0 <= y <= 9999)%Z.
Proof.
  intros (a & b & c & d & na & nb & nc & nd & _ & A & B & C & D & ->).
  apply spells_digit_range in A, B, C, D. lia.
Qed.

Lemma spells_month_range (mtext : string) (m : Z) : spells_month mtext m -> (1 <= m <= 12)%Z.
Proof. intros [[H _]|[H _]]; lia. Qed.

Lemma strptime_raises_value_error (py : builtins) (s : string) (e : exn) :
  strptime py s = Raise e -> e = ValueError.
Proof.
  unfold strptime. destruct (matches py s) as [|[[[y m] d] rest] others]; [congruence|].
  destruct (negb (String.eqb rest "")); [congruence|].
  destruct ((1 <=? y) && (d <=? days_in_month y m))%Z; congruence.
Qed.

Lemma strptime_sound (py : builtins) (s : string) (d : date) :
  strptime py s = Ok d -> spells_date py s d.
Proof.
  unfold strptime. destruct (matches py s) as [|[[[y m] dd] rest] others] eqn:E;
    [discriminate|].
  destruct (String.eqb rest "") eqn:R; [|discriminate]. cbn [negb].
  destruct ((1 <=? y) && (dd <=? days_in_month y m))%Z eqn:C; [|discriminate].
  intros H. injection H as <-.
  apply String.eqb_eq in R. subst rest.
  apply andb_true_iff in C as [C1 C2]. apply Z.leb_le in C1. apply Z.leb_le in C2.
  assert (Hin : In (y, m, dd, "") (matches py s)) by (rewrite E; now left).
  apply matches_sound in Hin as (ytext & mtext & dtext & -> & Y & M & D).
  exists ytext, mtext, dtext. rewrite append_empty_r.
  repeat split; try assumption; cbn [year month day].
  - apply spells_year_range in Y. lia.
  - apply spells_month_range in M. lia.
  - apply spells_month_range in M. lia.
  - destruct D as [[H _]|[[H _]|(t & u & ch & Ht & Hu & -> & _)]]; try lia.
    apply spells_digit_range in Hu. lia.
Qed.

Lemma strptime_complete (py : builtins) (s : string) (d : date) :
  spells_date py s d -> strptime py s = Ok d.
Proof.
  destruct d as [y m dd]. cbn [year month day].
  intros (ytext & mtext & dtext & -> & Y & M & D & (Hy & Hm & Hd)).
  cbn [year month day] in *.
  rewrite !append_cons, !append_empty_l.
  unfold strptime, matches.
  rewrite (match_Y_complete py ytext (String "-" (mtext ++ String "-" dtext)) y Y eq_refl).
  cbn [flat_map fst snd app].
  cbn [match_char]. change (Ascii.eqb "-" "-") with true. cbn iota.
  cbn [flat_map app].
  destruct (match_m_complete mtext dtext m M) as [ms Em].
  rewrite Em. cbn [flat_map fst snd app].
  cbn [match_char]. change (Ascii.eqb "-" "-") with true. cbn iota.
  cbn [flat_map app].
  destruct (match_d_complete py dtext dd D) as [ds Ed].
  rewrite Ed. cbn [map fst snd app].
  change (negb (String.eqb "" "")) with false. cbn iota.
  replace (1 <=? y)%Z with true by (symmetry; apply Z.leb_le; lia).
  replace (dd <=? days_in_month y m)%Z with true by (symmetry; apply Z.leb_le; lia).
  reflexivity.
Qed.

Lemma isoformat_spells_date (py : builtins) (d : date) :
  valid_date d -> spells_date py (isoformat d) d.
Proof.
  intros V. pose proof V as (Hy & Hm & Hd).
  pose proof (days_in_month_le_31 (year d) (month d)) as H31.
  exists (pad4 (year d)), (pad2 (month d)), (pad2 (day d)).
  split; [reflexivity|]. split; [|split; [|split]].
  - exists (String (digit_char (year d / 1000)) ""),
           (String (digit_char (year d / 100 mod 10)) ""),
           (String (digit_char (year d mod 100 / 10)) ""),
           (String (digit_char (year d mod 100 mod 10)) ""),
           (year d / 1000)%Z, (year d / 100 mod 10)%Z,
           (year d mod 100 / 10)%Z, (year d mod 100 mod 10)%Z.
    split; [reflexivity|].
    repeat split; try (left; split; [Z.div_mod_to_equations; lia|reflexivity]).
    Z.div_mod_to_equations. lia.
  - left. split; [lia|reflexivity].
  - left. split; [lia|reflexivity].
  - exact V.
Qed.

(** C5 as stated fails.  The date "2024-1-5", written without zero padding,
    is not the text of a strict date ("2024-01-05" is), yet [strptime]
    accepts it, and [get_historical_weather] goes on to request the archive
    for it and answers from the fetch.  The same holds for a day written
    with a space for its zero, and for a year written in fullwidth digits. *)
Lemma unpadded_date_is_accepted :
  isoformat (mkdate 2024 1 5) = "2024-01-05"
  /\ strptime sample_builtins "2024-1-5" = Ok (mkdate 2024 1 5)
  /\ get_historical_weather sample_builtins
       (constant_world (mkdate 2025 6 15) TransportError) 0%float 0%float "2024-1-5" []
     = (Ok "Unable to fetch historical weather data for 2024-1-5.",
        [archive_url sample_builtins 0%float 0%float "2024-1-5"])
  /\ get_historical_weather sample_builtins
       (constant_world (mkdate 2025 6 15) TransportError) 0%float 0%float "2024-01- 5" []
     = (Ok "Unable to fetch historical weather data for 2024-01- 5.",
        [archive_url sample_builtins 0%float 0%float "2024-01- 5"])
  /\ get_historical_weather sample_builtins
       (constant_world (mkdate 2025 6 15) TransportError) 0%float 0%float "２０２４-01-05" []
     = (Ok "Unable to fetch historical weather data for ２０２４-01-05.",
        [archive_url sample_builtins 0%float 0%float "２０２４-01-05"]).
Proof. repeat split. Qed.

(** C5, amended: [get_historical_weather] answers the invalid-format message,
    and requests nothing, for every text that does not name a calendar date
    of the years 1 to 9999 as year, hyphen, month, hyphen, day: among them
    "not-a-date", the day "2023-02-30" that does not exist, a month 13, the
    year 0000 and a date with text after it.  Every text that does name a
    date is read as that date and passes the format check: the strict
    YYYY-MM-DD text of every calendar date, and also a month or day without
    its zero, a day with a space for its zero, and decimal digits other than
    the ASCII ones in the year and as the second digit of a day from 10 to
    29. *)
Theorem only_texts_naming_a_date_pass_the_format_check (py : builtins) (env : world)
    (latitude longitude : float) :
  (forall text log,
      (forall d, ~ spells_date py text d) ->
      get_historical_weather py env latitude longitude text log
      = (Ok "Invalid date format. Please use YYYY-MM-DD format.", log))
  /\ (forall text d log,
      spells_date py text d ->
      strptime py text = Ok d
      /\ fst (get_historical_weather py env latitude longitude text log)
         <> Ok "Invalid date format. Please use YYYY-MM-DD format.")
  /\ (forall d, valid_date d -> spells_date py (isoformat d) d)
  /\ (forall text,
      In text ["not-a-date"; "2023-02-30"; "2024-13-01"; "0000-01-01";
               "2024-01-05 "; "2024-01-05T10:00"; "24-01-05"; "2024/01/05"] ->
      forall d, ~ spells_date py text d)
  /\ spells_date py "2024-1-5" (mkdate 2024 1 5)
  /\ spells_date py "2024-01- 5" (mkdate 2024 1 5).
Proof.
  split.
  { intros text log H. unfold get_historical_weather.
    destruct (strptime py text) as [d|e] eqn:E.
    - destruct (H d (strptime_sound py text d E)).
    - now rewrite (strptime_raises_value_error py text e E). }
  split.
  { intros text d log H. apply strptime_complete in H. split; [exact H|].
    unfold get_historical_weather. rewrite H.
    unfold bindIO at 1, lift at 1.
    destruct (date_ge d (today env)); [discriminate|].
    rewrite request_step.
    destruct (truthy _); cbn [negb fst ret lift]; [|discriminate].
    apply historical_report_is_not_the_format_message. }
  split; [apply isoformat_spells_date|].
  split.
  { intros text H d S. apply strptime_complete in S.
    repeat (destruct H as [<-|H]; [discriminate S|]). destruct H. }
  split; apply strptime_sound; reflexivity.
Qed.

Lemma only_texts_naming_a_date_pass_the_format_check_witness :
  valid_date (mkdate 2024 2 29)
  /\ spells_date sample_builtins "2024-02-29" (mkdate 2024 2 29)
  /\ fst (get_historical_weather sample_builtins sample_env 0%float 0%float "2024-02-29" [])
     <> Ok "Invalid date format. Please use YYYY-MM-DD format."
  /\ get_historical_weather sample_builtins sample_env 0%float 0%float "2024-02-30" []
     = (Ok "Invalid date format. Please use YYYY-MM-DD format.", []).
Proof.
  assert (V : valid_date (mkdate 2024 2 29))
    by (unfold valid_date; cbn [year month day];
        change (days_in_month 2024 2) with 29%Z; lia).
  destruct (only_texts_naming_a_date_pass_the_format_check
              sample_builtins sample_env 0%float 0%float)
    as (H1 & H2 & H3 & _).
  split; [exact V|]. split; [exact (H3 _ V)|].
  split; [exact (proj2 (H2 _ _ [] (H3 _ V)))|].
  apply H1. intros d S.
  pose proof (proj1 (H2 "2024-02-30" d [] S)) as E. discriminate E.
Defined.

(** ** Where the tools fall short of the specification *)

(** C1: a body whose [time] list holds the day while its [weather_code] list
    is empty makes [get_historical_weather] raise [IndexError], where
    [get_weather_forecast], which checks the length first, answers with a
    text.  A body that is not an object, and a match whose latitude is
    [null], raise as well. *)
Theorem historical_raises_on_empty_field (py : builtins) (latitude longitude : float) :
  get_historical_weather py (constant_world (mkdate 2025 6 15) (ok_body archive_with_no_codes))
    latitude longitude "2020-01-01" []
  = (Raise IndexError, [archive_url py latitude longitude "2020-01-01"])
  /\ fst (get_weather_forecast py
            (constant_world (mkdate 2025 6 15) (ok_body archive_with_no_codes))
            latitude longitude 1 [])
     = Ok ("Weather Forecast for 1 days:" ++ nl
           ++ "2020-01-01: Unknown, 1°C - 5°C, Rain: 0mm, Wind: 12km/h")
  /\ fst (get_current_weather py
            (constant_world (mkdate 2025 6 15) (ok_body (PList [PInt 1])))
            latitude longitude [])
     = Raise AttributeError
  /\ fst (search_locations py
            (constant_world (mkdate 2025 6 15)
               (ok_body (PDict [("results",
                                 PList [PDict [("name", PStr "Paris");
                                               ("latitude", PNone)]])])))
            "Paris" [])
     = Raise TypeError.
Proof. repeat split. Qed.

(** C2: the code 0 is in the table as "Clear sky", and the current-weather
    report prints it so; the forecast, the city report and the historical
    report print "Unknown" for it, because they test the code for truth
    before looking it up. *)
Theorem code_zero_reads_unknown (py : builtins) (latitude longitude : float) :
  WEATHER_CODES_get (PInt 0) "Unknown" = Ok "Clear sky"
  /\ describe_if_truthy (PInt 0) = Ok "Unknown"
  /\ fst (get_current_weather py
            (constant_world (mkdate 2025 6 15) (ok_body clear_sky_now))
            latitude longitude [])
     = Ok ("Current Weather:" ++ nl ++ "Temperature: 21°C" ++ nl
           ++ "Feels like: N/A°C" ++ nl ++ "Humidity: N/A%" ++ nl
           ++ "Wind Speed: N/A km/h" ++ nl ++ "Wind Direction: N/A°" ++ nl
           ++ "Pressure: N/A hPa" ++ nl ++ "Cloud Cover: N/A%" ++ nl
           ++ "Precipitation: N/A mm" ++ nl ++ "Rain: N/A mm" ++ nl
           ++ "Snow: N/A mm" ++ nl ++ "Weather: Clear sky")
  /\ fst (get_weather_by_city py
            (scripted_world (mkdate 2025 6 15)
               [ok_body sample_geocoding; ok_body clear_sky_now])
            "Paris" [])
     = Ok ("Weather in Paris, France:" ++ nl ++ "Weather: Unknown" ++ nl
           ++ "Temperature: 21°C" ++ nl ++ "Feels like: N/A°C" ++ nl
           ++ "Humidity: N/A%" ++ nl ++ "Wind Speed: N/A km/h" ++ nl
           ++ "Wind Direction: N/A°" ++ nl ++ "Pressure: N/A hPa" ++ nl
           ++ "Cloud Cover: N/A%" ++ nl ++ "Precipitation: N/A mm")
  /\ fst (get_weather_forecast py
            (constant_world (mkdate 2025 6 15) (ok_body clear_sky_day))
            latitude longitude 1 [])
     = Ok ("Weather Forecast for 1 days:" ++ nl
           ++ "2020-01-01: Unknown, 1°C - 5°C, Rain: 0mm, Wind: 12km/h")
  /\ fst (get_historical_weather py
            (constant_world (mkdate 2025 6 15) (ok_body clear_sky_day))
            latitude longitude "2020-01-01" [])
     = Ok ("Historical Weather for 2020-01-01:" ++ nl ++ "Weather: Unknown" ++ nl
           ++ "Temperature: 1°C - 5°C" ++ nl ++ "Precipitation: 0 mm" ++ nl
           ++ "Max Wind Speed: 12 km/h").
Proof. repeat split. Qed.

(** ** The codes the formatters do describe *)

Lemma table_find_entry (c : Z) (d : string) :
  In (c, d) WEATHER_CODES -> table_find c WEATHER_CODES = Some d.
Proof.
  unfold WEATHER_CODES. simpl In. intros H.
  repeat (destruct H as [H|H]; [injection H as <- <-; reflexivity|]).
  destruct H.
Qed.

(** X1: for every code of the table the lookup of the current-weather
    report gives the table's description, and so does the lookup of the
    forecast, the city report and the historical report when the code is
    not 0. *)
Theorem codes_described (c : Z) (d : string) :
  In (c, d) WEATHER_CODES ->
  WEATHER_CODES_get (PInt c) "Unknown" = Ok d
  /\ (c <> 0%Z -> describe_if_truthy (PInt c) = Ok d).
Proof.
  intros H. apply table_find_entry in H.
  unfold describe_if_truthy, WEATHER_CODES_get, truthy. rewrite H.
  split; [reflexivity|]. intros Hc.
  apply Z.eqb_neq in Hc. now rewrite Hc.
Qed.

Lemma codes_described_witness :
  In (95%Z, "Thunderstorm") WEATHER_CODES
  /\ describe_if_truthy (PInt 95) = Ok "Thunderstorm".
Proof.
  assert (H : In (95%Z, "Thunderstorm") WEATHER_CODES)
    by (unfold WEATHER_CODES; do 25 right; left; reflexivity).
  split; [exact H|].
  apply (proj2 (codes_described 95 "Thunderstorm" H)). discriminate.
Defined.

(** X2: for an integer that is no key of the table, such as 999, both
    lookups give "Unknown". *)
Theorem codes_outside_table (c : Z) :
  table_find c WEATHER_CODES = None ->
  WEATHER_CODES_get (PInt c) "Unknown" = Ok "Unknown"
  /\ describe_if_truthy (PInt c) = Ok "Unknown".
Proof.
  intros H. unfold describe_if_truthy, WEATHER_CODES_get. rewrite H.
  now destruct (truthy (PInt c)).
Qed.

Lemma codes_outside_table_witness :
  table_find 999 WEATHER_CODES = None
  /\ WEATHER_CODES_get (PInt 999) "Unknown" = Ok "Unknown"
  /\ describe_if_truthy (PInt 999) = Ok "Unknown".
Proof.
  split; [reflexivity|]. exact (codes_outside_table 999 eq_refl).
Defined.

(** * Further properties of the tools *)

(** ** Loops and binds *)

Lemma mapM_length {A B : Type} (f : A -> pyres B) (l : list A) (r : list B) :
  mapM f l = Ok r -> List.length r = List.length l.
Proof.
  revert r. induction l as [|a l IH]; intros r H; simpl in H.
  - now injection H as <-.
  - destruct (f a) as [b|e]; [|discriminate]. simpl in H.
    destruct (mapM f l) as [bs|e]; [|discriminate]. simpl in H.
    injection H as <-. simpl. now rewrite (IH bs).
Qed.

Lemma mapM_succeeds {A B : Type} (f : A -> pyres B) (l : list A) :
  (forall a, In a l -> exists b, f a = Ok b) -> exists r, mapM f l = Ok r.
Proof.
  induction l as [|a l IH]; intros H; simpl; [now eexists|].
  destruct (H a) as [b Hb]; [now left|]. rewrite Hb. simpl.
  destruct IH as [bs Hbs]; [intros x Hx; apply H; now right|].
  rewrite Hbs. simpl. now eexists.
Qed.

Lemma mapM_raises {A B : Type} (f : A -> pyres B) (l : list A) (a : A) (e : exn) :
  In a l -> f a = Raise e -> exists e', mapM f l = Raise e'.
Proof.
  induction l as [|x l IH]; intros Hin Hf; [destruct Hin|]. simpl.
  destruct (f x) as [b|e1] eqn:Hx; [|now eexists]. simpl.
  destruct Hin as [->|Hin]; [congruence|].
  destruct (IH Hin Hf) as [e' He']. rewrite He'. now eexists.
Qed.

Lemma WEATHER_CODES_get_hashable (key : pyval) (default : string) :
  hashable key = true -> exists d, WEATHER_CODES_get key default = Ok d.
Proof.
  destruct key; try discriminate; intros _; simpl; now eexists.
Qed.

Lemma describe_if_truthy_hashable (code : pyval) :
  hashable code = true -> exists d, describe_if_truthy code = Ok d.
Proof.
  intros H. unfold describe_if_truthy.
  destruct (truthy code); [now apply WEATHER_CODES_get_hashable|now eexists].
Qed.

(** ** Bodies that count as no body *)

Lemma fetch_falsy_as_failed (env : world) (n : nat) (url : string) :
  fetch_result (network (falsy_as_failed env) n url)
  = if truthy (fetch_result (network env n url)) then fetch_result (network env n url)
    else PNone.
Proof.
  unfold falsy_as_failed. cbn [network].
  now destruct (truthy (fetch_result (network env n url))).
Qed.

(** What a tool does after a request depends on the body only if the body
    tests true. *)
Lemma request_step_falsy_as_failed {B : Type} (env : world) (url : string)
    (k1 k2 : pyval -> IO B) (fallback : IO B) (log : list string) :
  (forall data,
      truthy data = true ->
      k1 data (log ++ [url])%list = k2 data (log ++ [url])%list) ->
  bindIO (make_openmeteo_request (falsy_as_failed env) url)
    (fun data => if negb (truthy data) then fallback else k1 data) log
  = bindIO (make_openmeteo_request env url)
      (fun data => if negb (truthy data) then fallback else k2 data) log.
Proof.
  intros H. rewrite !request_step, fetch_falsy_as_failed.
  destruct (truthy (fetch_result (network env (List.length log) url))) eqn:T.
  - rewrite T. cbn [negb]. now apply H.
  - reflexivity.
Qed.

Lemma bind_lift_ext {A B : Type} (r : pyres A) (k1 k2 : A -> IO B) (log : list string) :
  (forall a, k1 a log = k2 a log) -> bindIO (lift r) k1 log = bindIO (lift r) k2 log.
Proof.
  intros H. unfold bindIO, lift. destruct r; [apply H|reflexivity].
Qed.

Lemma city_lookup_falsy_as_failed (py : builtins) (env : world) (city_name : string)
    (log : list string) :
  get_weather_by_city py (falsy_as_failed env) city_name log
  = get_weather_by_city py env city_name log.
Proof.
  unfold get_weather_by_city.
  apply request_step_falsy_as_failed. intros location_data _.
  apply bind_lift_ext. intros results.
  destruct (negb (truthy results)); [reflexivity|].
  do 5 (apply bind_lift_ext; intro).
  destruct (is_none _ || is_none _); [reflexivity|].
  now apply request_step_falsy_as_failed.
Qed.

(** X3: a tool takes every body that tests false for a failed fetch, not
    only [None].  Serving a transport failure in place of every body that
    tests false (the empty object, the empty array, the empty string, [0],
    [false]) changes the outcome and the requests of no tool, at any of its
    requests: the second request of [get_weather_by_city] and the four of
    [compare_weather_cities] included.  So a tool with one request, and
    [get_weather_by_city] at its first, answer such a body with their
    fallback text. *)
Theorem falsy_body_gives_fallback (py : builtins) (env : world) (log : list string) :
  let falsy (url : string) :=
    truthy (fetch_result (network env (List.length log) url)) = false in
  (truthy (PDict []) = false /\ truthy (PList []) = false /\ truthy (PStr "") = false
   /\ truthy (PInt 0) = false /\ truthy (PBool false) = false)
  /\ (forall n url,
        fetch_result (network (falsy_as_failed env) n url)
        = if truthy (fetch_result (network env n url))
          then fetch_result (network env n url) else PNone)
  /\ (forall latitude longitude,
        get_current_weather py (falsy_as_failed env) latitude longitude log
        = get_current_weather py env latitude longitude log)
  /\ (forall query,
        search_locations py (falsy_as_failed env) query log
        = search_locations py env query log)
  /\ (forall latitude longitude days,
        get_weather_forecast py (falsy_as_failed env) latitude longitude days log
        = get_weather_forecast py env latitude longitude days log)
  /\ (forall latitude longitude,
        get_weather_alerts py (falsy_as_failed env) latitude longitude log
        = get_weather_alerts py env latitude longitude log)
  /\ (forall city_name,
        get_weather_by_city py (falsy_as_failed env) city_name log
        = get_weather_by_city py env city_name log)
  /\ (forall city1 city2,
        compare_weather_cities py (falsy_as_failed env) city1 city2 log
        = compare_weather_cities py env city1 city2 log)
  /\ (forall latitude longitude text,
        get_historical_weather py (falsy_as_failed env) latitude longitude text log
        = get_historical_weather py env latitude longitude text log)
  /\ (forall latitude longitude,
        falsy (current_weather_url py latitude longitude) ->
        get_current_weather py env latitude longitude log
        = (Ok "Unable to fetch current weather data for this location.",
           (log ++ [current_weather_url py latitude longitude])%list))
  /\ (forall query,
        falsy (search_url query) ->
        search_locations py env query log
        = (Ok ("No locations found for '" ++ query ++ "'"),
           (log ++ [search_url query])%list))
  /\ (forall latitude longitude days,
        falsy (forecast_url py latitude longitude (clamp_days days)) ->
        get_weather_forecast py env latitude longitude days log
        = (Ok "Unable to fetch forecast data for this location.",
           (log ++ [forecast_url py latitude longitude (clamp_days days)])%list))
  /\ (forall latitude longitude,
        falsy (alerts_url py latitude longitude) ->
        get_weather_alerts py env latitude longitude log
        = (Ok "Unable to fetch weather alert data for this location.",
           (log ++ [alerts_url py latitude longitude])%list))
  /\ (forall city_name,
        falsy (city_search_url city_name) ->
        get_weather_by_city py env city_name log
        = (Ok ("City '" ++ city_name
               ++ "' not found. Please check the spelling and try again."),
           (log ++ [city_search_url city_name])%list))
  /\ (forall latitude longitude text d,
        strptime py text = Ok d ->
        before d (today env) ->
        falsy (archive_url py latitude longitude text) ->
        get_historical_weather py env latitude longitude text log
        = (Ok ("Unable to fetch historical weather data for " ++ text ++ "."),
           (log ++ [archive_url py latitude longitude text])%list)).
Proof.
  intros falsy. subst falsy. cbv beta.
  split; [repeat split|].
  split; [intros n url; apply fetch_falsy_as_failed|].
  split; [intros latitude longitude; unfold get_current_weather;
          now apply request_step_falsy_as_failed|].
  split; [intros query; unfold search_locations;
          now apply request_step_falsy_as_failed|].
  split; [intros latitude longitude days; unfold get_weather_forecast;
          now apply request_step_falsy_as_failed|].
  split; [intros latitude longitude; unfold get_weather_alerts;
          now apply request_step_falsy_as_failed|].
  split; [intros city_name; apply city_lookup_falsy_as_failed|].
  split.
  { intros city1 city2. unfold compare_weather_cities, bindIO.
    rewrite city_lookup_falsy_as_failed.
    destruct (get_weather_by_city py env city1 log) as [[weather1|e] log1];
      [|reflexivity].
    now rewrite city_lookup_falsy_as_failed. }
  split.
  { intros latitude longitude text. unfold get_historical_weather.
    destruct (strptime py text) as [d|e]; [|reflexivity].
    apply bind_lift_ext. intros request_date.
    change (today (falsy_as_failed env)) with (today env).
    destruct (date_ge request_date (today env)); [reflexivity|].
    now apply request_step_falsy_as_failed. }
  split; [intros latitude longitude H; unfold get_current_weather;
          rewrite request_step, H; reflexivity|].
  split; [intros query H; unfold search_locations;
          rewrite request_step, H; reflexivity|].
  split; [intros latitude longitude days H; unfold get_weather_forecast;
          rewrite request_step, H; reflexivity|].
  split; [intros latitude longitude H; unfold get_weather_alerts;
          rewrite request_step, H; reflexivity|].
  split; [intros city_name H; unfold get_weather_by_city;
          rewrite request_step, H; reflexivity|].
  intros latitude longitude text d Hd Hb H. apply date_ge_false_iff in Hb.
  unfold get_historical_weather. rewrite Hd.
  unfold bindIO at 1, lift at 1. rewrite Hb, request_step, H. reflexivity.
Qed.

Lemma falsy_body_gives_fallback_witness :
  get_weather_alerts sample_builtins
    (constant_world (mkdate 2025 6 15) (ok_body (PDict []))) 0%float 0%float []
  = (Ok "Unable to fetch weather alert data for this location.",
     [alerts_url sample_builtins 0%float 0%float])
  /\ compare_weather_cities sample_builtins
       (scripted_world (mkdate 2025 6 15)
          [ok_body sample_geocoding; ok_body (PDict []); ok_body (PList [])])
       "Paris" "Rome" []
     = compare_weather_cities sample_builtins
         (falsy_as_failed
            (scripted_world (mkdate 2025 6 15)
               [ok_body sample_geocoding; ok_body (PDict []); ok_body (PList [])]))
         "Paris" "Rome" [].
Proof.
  split.
  - destruct (falsy_body_gives_fallback sample_builtins
                (constant_world (mkdate 2025 6 15) (ok_body (PDict []))) [])
      as (_ & _ & _ & _ & _ & _ & _ & _ & _ & _ & _ & _ & H & _).
    apply H. reflexivity.
  - destruct (falsy_body_gives_fallback sample_builtins
                (scripted_world (mkdate 2025 6 15)
                   [ok_body sample_geocoding; ok_body (PDict []); ok_body (PList [])]) [])
      as (_ & _ & _ & _ & _ & _ & _ & H & _).
    symmetry. apply H.
Defined.

(** X4: [make_openmeteo_request] returns [None] exactly when the transport
    fails, the status is outside 2xx, the body is no JSON, or the body is the
    JSON [null]; in every other case it returns the parsed body itself. *)
Theorem fetch_is_none_exactly_on_failure_or_null (o : http_outcome) :
  (fetch_result o = PNone <->
     o = TransportError
     \/ exists status body,
          o = Response status body
          /\ (is_success status = false \/ body = None \/ body = Some PNone))
  /\ (forall status v,
        o = Response status (Some v) -> is_success status = true -> fetch_result o = v).
Proof.
  split.
  - split.
    + destruct o as [|status body]; [now left|]. intros H. right.
      exists status, body. split; [reflexivity|].
      unfold fetch_result in H. destruct (is_success status); [|now left].
      right. destruct body as [v|]; [right; now rewrite H|now left].
    + intros [->|(status & body & -> & H)]; [reflexivity|].
      unfold fetch_result. destruct (is_success status); [|reflexivity].
      destruct H as [H|[->| ->]]; [discriminate|reflexivity|reflexivity].
  - intros status v -> H. unfold fetch_result. now rewrite H.
Qed.

(** ** Searches without matches *)

(** X5: when the geocoding body is an object whose [results] entry is
    missing, [null] or an empty list, [search_locations] answers "No
    locations found for" the query, and [get_weather_by_city] answers that
    the city was not found; neither raises, and the city lookup makes no
    second request. *)
Theorem no_matches_is_reported (py : builtins) (env : world) (name : string)
    (data : list (string * pyval)) (log : list string) :
  truthy (field data "results") = false ->
  (fetch_result (network env (List.length log) (search_url name)) = PDict data ->
   search_locations py env name log
   = (Ok ("No locations found for '" ++ name ++ "'"), (log ++ [search_url name])%list))
  /\ (fetch_result (network env (List.length log) (city_search_url name)) = PDict data ->
      get_weather_by_city py env name log
      = (Ok ("City '" ++ name
             ++ "' not found. Please check the spelling and try again."),
         (log ++ [city_search_url name])%list)).
Proof.
  intros H. unfold field in H. split; intros Hd.
  - unfold search_locations. rewrite request_step, Hd.
    destruct (truthy (PDict data)); [|reflexivity]. cbn [negb].
    unfold lift, dict_get, bind. now rewrite H.
  - unfold get_weather_by_city. rewrite request_step, Hd.
    destruct (truthy (PDict data)); [|reflexivity]. cbn [negb].
    unfold bindIO at 1, lift at 1, dict_get. now rewrite H.
Qed.

Lemma no_matches_is_reported_witness :
  truthy (field [("results", PList [])] "results") = false
  /\ search_locations sample_builtins
       (constant_world (mkdate 2025 6 15) (ok_body (PDict [("results", PList [])])))
       "Qwxyzzzz" []
     = (Ok "No locations found for 'Qwxyzzzz'", [search_url "Qwxyzzzz"]).
Proof.
  split; [reflexivity|].
  exact (proj1 (no_matches_is_reported sample_builtins
                  (constant_world (mkdate 2025 6 15)
                     (ok_body (PDict [("results", PList [])])))
                  "Qwxyzzzz" [("results", PList [])] [] eq_refl) eq_refl).
Defined.

(** ** The forecast's parallel lists *)

Lemma daily_at_of_list (daily : list (string * pyval)) (key : string) (i : nat)
    (default : pyval) :
  list_or_missing daily key = true ->
  daily_at (PDict daily) key i default
  = Ok (match lookup key daily with
        | Some (PList l) => nth i l default
        | _ => default
        end).
Proof.
  unfold list_or_missing, daily_at, dict_get, bind.
  destruct (lookup key daily) as [[| | | | |l|]|]; try discriminate; intros _.
  - cbn [py_len]. destruct (i <? List.length l)%nat eqn:E.
    + apply Nat.ltb_lt in E. cbn [py_getitem].
      destruct (nth_error l i) as [x|] eqn:N.
      * now rewrite (nth_error_nth l i default N).
      * apply nth_error_None in N. lia.
    + apply Nat.ltb_ge in E. now rewrite nth_overflow.
  - reflexivity.
Qed.

Lemma hashable_nth (l : list pyval) (i : nat) :
  forallb hashable l = true -> hashable (nth i l PNone) = true.
Proof.
  revert i. induction l as [|x l IH]; intros i H; [now destruct i|].
  simpl in H. apply andb_true_iff in H as [Hx Hl].
  destruct i; [exact Hx|now apply IH].
Qed.

(** X6: on a body whose [daily] section holds the dates as a list and each
    per-day field as a list or not at all, with codes that are not
    containers, [get_weather_forecast] never raises and prints the heading and
    exactly one line per returned date, however many days were asked for.  A
    field with fewer entries than there are dates reads its placeholder on
    the days it lacks. *)
Theorem forecast_prints_a_line_per_date (py : builtins) (days : Z)
    (data daily : list (string * pyval)) (dates : list pyval) :
  field_or data "daily" (PDict []) = PDict daily ->
  field_or daily "time" (PList []) = PList dates ->
  list_or_missing daily "weather_code" = true ->
  list_or_missing daily "temperature_2m_max" = true ->
  list_or_missing daily "temperature_2m_min" = true ->
  list_or_missing daily "precipitation_sum" = true ->
  list_or_missing daily "wind_speed_10m_max" = true ->
  (forall codes, lookup "weather_code" daily = Some (PList codes) ->
                 forallb hashable codes = true) ->
  (exists lines,
      forecast_report py days (PDict data)
      = Ok (join nl (("Weather Forecast for " ++ str_int days ++ " days:") :: lines))
      /\ List.length lines = List.length dates)
  /\ (forall key values i default,
        lookup key daily = Some (PList values) ->
        (List.length values <= i)%nat ->
        daily_at (PDict daily) key i default = Ok default).
Proof.
  intros Hdaily Htime Hc Hmax Hmin Hp Hw Hcodes. split.
  - unfold forecast_report, dict_get at 1. unfold field_or in Hdaily. rewrite Hdaily.
    cbn [bind]. unfold dict_get at 1. unfold field_or in Htime. rewrite Htime.
    cbn [bind py_len].
    destruct (mapM_succeeds (forecast_line py (PDict daily) (PList dates))
                (seq 0 (List.length dates))) as [lines Hl].
    { intros i Hi. apply in_seq in Hi. unfold forecast_line.
      cbn [py_getitem]. destruct (nth_error dates i) as [date|] eqn:N;
        [|apply nth_error_None in N; lia].
      cbn [bind]. rewrite !daily_at_of_list by assumption. cbn [bind].
      destruct (describe_if_truthy_hashable
                  (match lookup "weather_code" daily with
                   | Some (PList l) => nth i l PNone
                   | _ => PNone
                   end)) as [desc Hdesc].
      { destruct (lookup "weather_code" daily) as [[| | | | |codes|]|] eqn:E;
          try reflexivity.
        apply hashable_nth. now apply Hcodes. }
      rewrite Hdesc. cbn [bind]. now eexists. }
    rewrite Hl. cbn [bind]. exists lines. split; [reflexivity|].
    rewrite (mapM_length _ _ _ Hl). apply length_seq.
  - intros key values i default Hk Hlen.
    rewrite daily_at_of_list by (unfold list_or_missing; now rewrite Hk).
    rewrite Hk. now rewrite nth_overflow.
Qed.

Lemma forecast_prints_a_line_per_date_witness :
  exists lines,
    forecast_report sample_builtins 1 clear_sky_day
    = Ok (join nl (("Weather Forecast for " ++ str_int 1 ++ " days:") :: lines))
    /\ List.length lines = 1%nat.
Proof.
  refine (proj1 (forecast_prints_a_line_per_date sample_builtins 1
                   [("daily", PDict [("time", PList [PStr "2020-01-01"]);
                                     ("weather_code", PList [PInt 0]);
                                     ("temperature_2m_max", PList [PInt 5]);
                                     ("temperature_2m_min", PList [PInt 1]);
                                     ("precipitation_sum", PList [PInt 0]);
                                     ("wind_speed_10m_max", PList [PInt 12])])]
                   _ [PStr "2020-01-01"]
                   eq_refl eq_refl eq_refl eq_refl eq_refl eq_refl eq_refl _)).
  intros codes H. injection H as <-. reflexivity.
Defined.

(** ** Reports with missing metrics *)

(** X7: when the body's [current] section is an object, or is missing, and
    the weather code is not a container, [get_current_weather] never raises:
    each line of the report shows its own metric, or "N/A" when the snapshot
    lacks it, whatever the other metrics are, and the last line shows the
    description of the code. *)
Theorem current_report_defaults_each_metric (py : builtins) (env : world)
    (latitude longitude : float) (log : list string)
    (data current : list (string * pyval)) :
  fetch_result (network env (List.length log) (current_weather_url py latitude longitude))
  = PDict data ->
  data <> [] ->
  field_or data "current" (PDict []) = PDict current ->
  hashable (field current "weather_code") = true ->
  let shown (key : string) := py_str py (field_or current key (PStr "N/A")) in
  exists desc,
    WEATHER_CODES_get (field current "weather_code") "Unknown" = Ok desc
    /\ get_current_weather py env latitude longitude log
       = (Ok ("Current Weather:" ++ nl
              ++ "Temperature: " ++ shown "temperature_2m" ++ "°C" ++ nl
              ++ "Feels like: " ++ shown "apparent_temperature" ++ "°C" ++ nl
              ++ "Humidity: " ++ shown "relative_humidity_2m" ++ "%" ++ nl
              ++ "Wind Speed: " ++ shown "wind_speed_10m" ++ " km/h" ++ nl
              ++ "Wind Direction: " ++ shown "wind_direction_10m" ++ "°" ++ nl
              ++ "Pressure: " ++ shown "pressure_msl" ++ " hPa" ++ nl
              ++ "Cloud Cover: " ++ shown "cloud_cover" ++ "%" ++ nl
              ++ "Precipitation: " ++ shown "precipitation" ++ " mm" ++ nl
              ++ "Rain: " ++ shown "rain" ++ " mm" ++ nl
              ++ "Snow: " ++ shown "snowfall" ++ " mm" ++ nl
              ++ "Weather: " ++ desc),
          (log ++ [current_weather_url py latitude longitude])%list).
Proof.
  intros Hdata Hne Hcur Hcode shown.
  destruct (WEATHER_CODES_get_hashable _ "Unknown" Hcode) as [desc Hdesc].
  exists desc. split; [exact Hdesc|].
  unfold get_current_weather. rewrite request_step, Hdata.
  destruct data as [|entry data]; [congruence|]. cbn [truthy negb].
  unfold lift, current_weather_report, dict_get at 1.
  unfold field_or in Hcur. rewrite Hcur. cbn [bind]. unfold dict_get. cbn [bind].
  fold (field current "weather_code"). rewrite Hdesc. reflexivity.
Qed.

Lemma current_report_defaults_each_metric_witness :
  exists desc,
    WEATHER_CODES_get (field [("weather_code", PInt 3)] "weather_code") "Unknown" = Ok desc
    /\ fst (get_current_weather sample_builtins
              (constant_world (mkdate 2025 6 15)
                 (ok_body (PDict [("current", PDict [("weather_code", PInt 3)])])))
              0%float 0%float [])
       = Ok ("Current Weather:" ++ nl
             ++ "Temperature: N/A°C" ++ nl ++ "Feels like: N/A°C" ++ nl
             ++ "Humidity: N/A%" ++ nl ++ "Wind Speed: N/A km/h" ++ nl
             ++ "Wind Direction: N/A°" ++ nl ++ "Pressure: N/A hPa" ++ nl
             ++ "Cloud Cover: N/A%" ++ nl ++ "Precipitation: N/A mm" ++ nl
             ++ "Rain: N/A mm" ++ nl ++ "Snow: N/A mm" ++ nl
             ++ "Weather: " ++ desc).
Proof.
  destruct (current_report_defaults_each_metric sample_builtins
              (constant_world (mkdate 2025 6 15)
                 (ok_body (PDict [("current", PDict [("weather_code", PInt 3)])])))
              0%float 0%float []
              [("current", PDict [("weather_code", PInt 3)])]
              [("weather_code", PInt 3)] eq_refl)
    as (desc & Hdesc & H); [discriminate|reflexivity|reflexivity|].
  exists desc. split; [exact Hdesc|]. now rewrite H.
Defined.

(** ** Historical reports *)

Lemma first_of_of_list (daily : list (string * pyval)) (key : string) (default : pyval) :
  first_or_missing daily key = true ->
  first_of (PDict daily) key default = Ok (first_or daily key default).
Proof.
  unfold first_or_missing, first_of, first_or, dict_get, bind.
  destruct (lookup key daily) as [[| | | | |[|x l]|]|]; try discriminate; reflexivity.
Qed.

(** X8: for a past date and a body whose [daily] section is an object,
    [get_historical_weather] answers "No historical data available" when the
    [time] entry is missing, [null] or empty, whatever else the section
    holds.  When [time] is not empty and each per-day field is either missing
    or a list with a first item, with a code that is not a container, it
    never raises: the report shows the first item of each field, or the
    placeholder of a missing one. *)
Theorem historical_report_reads_first_items (py : builtins) (text : string)
    (data daily : list (string * pyval)) :
  field_or data "daily" (PDict []) = PDict daily ->
  (truthy (field daily "time") = false ->
     historical_report py text (PDict data)
     = Ok ("No historical data available for " ++ text ++ "."))
  /\ (truthy (field daily "time") = true ->
      first_or_missing daily "weather_code" = true ->
      first_or_missing daily "temperature_2m_max" = true ->
      first_or_missing daily "temperature_2m_min" = true ->
      first_or_missing daily "precipitation_sum" = true ->
      first_or_missing daily "wind_speed_10m_max" = true ->
      hashable (first_or daily "weather_code" PNone) = true ->
      exists desc,
        describe_if_truthy (first_or daily "weather_code" PNone) = Ok desc
        /\ historical_report py text (PDict data)
           = Ok ("Historical Weather for " ++ text ++ ":" ++ nl
                 ++ "Weather: " ++ desc ++ nl
                 ++ "Temperature: "
                 ++ py_str py (first_or daily "temperature_2m_min" (PStr "N/A"))
                 ++ "°C - "
                 ++ py_str py (first_or daily "temperature_2m_max" (PStr "N/A"))
                 ++ "°C" ++ nl
                 ++ "Precipitation: "
                 ++ py_str py (first_or daily "precipitation_sum" (PStr "N/A"))
                 ++ " mm" ++ nl
                 ++ "Max Wind Speed: "
                 ++ py_str py (first_or daily "wind_speed_10m_max" (PStr "N/A"))
                 ++ " km/h")).
Proof.
  intros Hdaily. unfold field_or in Hdaily.
  split.
  - intros H. unfold historical_report, dict_get at 1. rewrite Hdaily. cbn [bind].
    unfold dict_get at 1. cbn [bind]. fold (field daily "time"). now rewrite H.
  - intros H Hc Hmax Hmin Hp Hw Hh.
    unfold historical_report, dict_get at 1. rewrite Hdaily. cbn [bind].
    unfold dict_get at 1. cbn [bind]. fold (field daily "time"). rewrite H.
    cbn [negb]. rewrite !first_of_of_list by assumption. cbn [bind].
    destruct (describe_if_truthy_hashable _ Hh) as [desc Hdesc].
    exists desc. split; [exact Hdesc|]. rewrite Hdesc. reflexivity.
Qed.

Lemma historical_report_reads_first_items_witness :
  truthy (field [("time", PList [])] "time") = false
  /\ historical_report sample_builtins "2020-01-01"
       (PDict [("daily", PDict [("time", PList [])])])
     = Ok "No historical data available for 2020-01-01.".
Proof.
  split; [reflexivity|].
  exact (proj1 (historical_report_reads_first_items sample_builtins "2020-01-01"
                  [("daily", PDict [("time", PList [])])] [("time", PList [])] eq_refl)
           eq_refl).
Defined.

(** ** The two requests of a city lookup *)

Lemma city_lookup_after_geocoding (py : builtins) (env : world) (city_name : string)
    (log : list string) (data location : list (string * pyval)) (results : pyval) :
  fetch_result (network env (List.length log) (city_search_url city_name)) = PDict data ->
  lookup "results" data = Some results ->
  truthy results = true ->
  py_getitem results 0 = Ok (PDict location) ->
  get_weather_by_city py env city_name log
  = (if is_none (field location "latitude") || is_none (field location "longitude") then
       (Ok ("Could not get coordinates for '" ++ city_name ++ "'"),
        (log ++ [city_search_url city_name])%list)
     else
       let url := city_weather_url py (field location "latitude")
                    (field location "longitude") in
       let weather_data := fetch_result (network env (S (List.length log)) url) in
       (if truthy weather_data then
          city_weather_report py (field location "name") (field location "country")
            weather_data
        else Ok (city_unable_to_fetch py (field location "name")
                   (field location "country")),
        (log ++ [city_search_url city_name; url])%list)).
Proof.
  intros Hdata Hres Htrue Hitem.
  unfold get_weather_by_city.
  rewrite request_step, Hdata, (truthy_dict_with_entry _ _ _ Hres).
  cbn [negb]. unfold bindIO at 1, lift at 1, dict_get at 1. rewrite Hres, Htrue.
  cbn [negb]. unfold bindIO at 1, lift at 1. rewrite Hitem.
  unfold dict_get, lift, bindIO at 1 2 3 4. fold (field location "latitude").
  fold (field location "longitude"). fold (field location "name").
  fold (field location "country").
  destruct (is_none (field location "latitude") || is_none (field location "longitude"));
    [reflexivity|].
  rewrite request_step, length_app. cbn [List.length].
  rewrite Nat.add_1_r. cbv zeta. rewrite <- app_assoc.
  destruct (truthy (fetch_result _)); reflexivity.
Qed.

(** X9: [get_weather_by_city] asks for the weather at the coordinates of
    the first geocoding match, printed into the second URL as [str()] prints
    them, and heads the report with that match's name and country.  When the
    first match lacks its latitude or longitude, or holds [null] for one, the
    answer is "Could not get coordinates for" the city and no second request
    is made. *)
Theorem city_lookup_uses_first_match (py : builtins) (env : world) (city_name : string)
    (log : list string) (data location : list (string * pyval)) (results : pyval) :
  fetch_result (network env (List.length log) (city_search_url city_name)) = PDict data ->
  lookup "results" data = Some results ->
  truthy results = true ->
  py_getitem results 0 = Ok (PDict location) ->
  let latitude := field location "latitude" in
  let longitude := field location "longitude" in
  let weather_url :=
    OPENMETEO_API_BASE ++ "/forecast?latitude=" ++ py_str py latitude
    ++ "&longitude=" ++ py_str py longitude
    ++ "&current=temperature_2m,is_day,cloud_cover,wind_speed_10m,wind_direction_10m,pressure_msl,precipitation,relative_humidity_2m,apparent_temperature,weather_code" in
  (is_none latitude || is_none longitude = true ->
     get_weather_by_city py env city_name log
     = (Ok ("Could not get coordinates for '" ++ city_name ++ "'"),
        (log ++ [city_search_url city_name])%list))
  /\ (is_none latitude || is_none longitude = false ->
      forall weather_data,
        fetch_result (network env (S (List.length log)) weather_url) = weather_data ->
        truthy weather_data = true ->
        get_weather_by_city py env city_name log
        = (city_weather_report py (field location "name") (field location "country")
             weather_data,
           (log ++ [city_search_url city_name; weather_url])%list)).
Proof.
  intros Hdata Hres Htrue Hitem latitude longitude weather_url.
  rewrite (city_lookup_after_geocoding py env city_name log data location results
             Hdata Hres Htrue Hitem).
  fold latitude longitude. split.
  - intros ->. reflexivity.
  - intros -> weather_data Hw Ht. cbv zeta.
    change (city_weather_url py latitude longitude) with weather_url.
    rewrite Hw, Ht. reflexivity.
Qed.

Lemma city_lookup_uses_first_match_witness :
  get_weather_by_city sample_builtins
    (constant_world (mkdate 2025 6 15)
       (ok_body (PDict [("results", PList [PDict [("name", PStr "Atlantis")]])])))
    "Atlantis" []
  = (Ok "Could not get coordinates for 'Atlantis'", [city_search_url "Atlantis"]).
Proof.
  exact (proj1 (city_lookup_uses_first_match sample_builtins
                  (constant_world (mkdate 2025 6 15)
                     (ok_body (PDict [("results",
                                       PList [PDict [("name", PStr "Atlantis")]])])))
                  "Atlantis" []
                  [("results", PList [PDict [("name", PStr "Atlantis")]])]
                  [("name", PStr "Atlantis")]
                  (PList [PDict [("name", PStr "Atlantis")]])
                  eq_refl eq_refl eq_refl eq_refl) eq_refl).
Defined.

(** ** How many requests a tool makes *)

Lemma city_lookup_requests (py : builtins) (env : world) (city_name : string)
    (log : list string) :
  exists more,
    snd (get_weather_by_city py env city_name log)
    = (log ++ city_search_url city_name :: more)%list
    /\ (List.length more <= 1)%nat.
Proof.
  unfold get_weather_by_city. rewrite request_step.
  destruct (negb (truthy _)); [exists []; split; [reflexivity|simpl; lia]|].
  unfold bindIO at 1, lift at 1.
  destruct (dict_get _ "results" PNone) as [results|e];
    [|exists []; split; [reflexivity|simpl; lia]].
  destruct (negb (truthy results)); [exists []; split; [reflexivity|simpl; lia]|].
  unfold bindIO at 1, lift at 1.
  destruct (py_getitem results 0) as [location|e];
    [|exists []; split; [reflexivity|simpl; lia]].
  unfold bindIO at 1, lift at 1.
  destruct (dict_get location "latitude" PNone) as [latitude|e];
    [|exists []; split; [reflexivity|simpl; lia]].
  unfold bindIO at 1, lift at 1.
  destruct (dict_get location "longitude" PNone) as [longitude|e];
    [|exists []; split; [reflexivity|simpl; lia]].
  unfold bindIO at 1, lift at 1.
  destruct (dict_get location "name" PNone) as [name|e];
    [|exists []; split; [reflexivity|simpl; lia]].
  unfold bindIO at 1, lift at 1.
  destruct (dict_get location "country" PNone) as [country|e];
    [|exists []; split; [reflexivity|simpl; lia]].
  destruct (is_none latitude || is_none longitude);
    [exists []; split; [reflexivity|simpl; lia]|].
  rewrite request_step. exists [city_weather_url py latitude longitude].
  split; [|simpl; lia].
  rewrite <- app_assoc. now destruct (negb (truthy _)).
Qed.

(** X10: a tool only adds to the list of requests, and adds few.  The five
    tools with one URL add exactly that request (the historical tool none
    when the date is refused); [get_weather_by_city] adds the geocoding
    request and at most one more; [compare_weather_cities] starts with the
    geocoding request for the first city and adds at most four in all. *)
Theorem tools_make_few_requests (py : builtins) (env : world) (log : list string) :
  (forall latitude longitude,
      snd (get_current_weather py env latitude longitude log)
      = (log ++ [current_weather_url py latitude longitude])%list)
  /\ (forall query,
      snd (search_locations py env query log) = (log ++ [search_url query])%list)
  /\ (forall latitude longitude days,
      snd (get_weather_forecast py env latitude longitude days log)
      = (log ++ [forecast_url py latitude longitude (clamp_days days)])%list)
  /\ (forall latitude longitude,
      snd (get_weather_alerts py env latitude longitude log)
      = (log ++ [alerts_url py latitude longitude])%list)
  /\ (forall latitude longitude text,
      snd (get_historical_weather py env latitude longitude text log) = log
      \/ snd (get_historical_weather py env latitude longitude text log)
         = (log ++ [archive_url py latitude longitude text])%list)
  /\ (forall city_name, exists more,
      snd (get_weather_by_city py env city_name log)
      = (log ++ city_search_url city_name :: more)%list
      /\ (List.length more <= 1)%nat)
  /\ (forall city1 city2, exists more,
      snd (compare_weather_cities py env city1 city2 log)
      = (log ++ city_search_url city1 :: more)%list
      /\ (List.length more <= 3)%nat).
Proof.
  split; [intros; unfold get_current_weather; rewrite request_step;
          now destruct (negb (truthy _))|].
  split; [intros; unfold search_locations; rewrite request_step;
          now destruct (negb (truthy _))|].
  split; [intros; unfold get_weather_forecast; rewrite request_step;
          now destruct (negb (truthy _))|].
  split; [intros; unfold get_weather_alerts; rewrite request_step;
          now destruct (negb (truthy _))|].
  split.
  { intros latitude longitude text. unfold get_historical_weather.
    destruct (strptime py text) as [d|e]; [|left; now destruct e].
    destruct (date_ge d (today env)) eqn:E; [left|right];
      unfold bindIO at 1, lift at 1; rewrite E; [reflexivity|].
    rewrite request_step. now destruct (negb (truthy _)). }
  split; [intros; apply city_lookup_requests|].
  intros city1 city2. unfold compare_weather_cities, bindIO.
  destruct (city_lookup_requests py env city1 log) as (more1 & E1 & L1).
  destruct (get_weather_by_city py env city1 log) as [[weather1|e1] log1];
    cbn [snd] in E1; subst log1.
  - destruct (city_lookup_requests py env city2
                (log ++ city_search_url city1 :: more1)%list) as (more2 & E2 & L2).
    destruct (get_weather_by_city py env city2 _) as [[weather2|e2] log2];
      cbn [snd] in E2; subst log2.
    + exists (more1 ++ city_search_url city2 :: more2)%list. split.
      * destruct (lookup_failed weather1); [|destruct (lookup_failed weather2)];
          cbn [snd ret]; rewrite <- app_assoc; reflexivity.
      * rewrite length_app. simpl. lia.
    + exists (more1 ++ city_search_url city2 :: more2)%list. split.
      * cbn [snd]. rewrite <- app_assoc. reflexivity.
      * rewrite length_app. simpl. lia.
  - exists more1. split; [reflexivity|lia].
Qed.

(** ** Matches that cannot be printed *)

(** X11: [search_locations] prints all matches or none.  When one item of
    the result list makes the loop body raise, as a match that is no object
    does, or one whose latitude is [null] or a string, the whole call raises
    and no line of the other matches is returned. *)
Theorem one_bad_match_fails_the_search (py : builtins) (env : world) (query : string)
    (log : list string) (data : list (string * pyval)) (items : list pyval)
    (bad : pyval) (e : exn) :
  fetch_result (network env (List.length log) (search_url query)) = PDict data ->
  lookup "results" data = Some (PList items) ->
  In bad items ->
  location_str py bad = Raise e ->
  (exists e', search_locations py env query log
              = (Raise e', (log ++ [search_url query])%list))
  /\ location_str py (PStr "Paris") = Raise AttributeError
  /\ (forall match_,
        lookup "latitude" match_ = Some PNone ->
        location_str py (PDict match_) = Raise TypeError)
  /\ (forall match_ text,
        lookup "latitude" match_ = Some (PStr text) ->
        location_str py (PDict match_) = Raise ValueError).
Proof.
  intros Hdata Hres Hin Hbad. split; [|split; [reflexivity|split]].
  - destruct (mapM_raises (location_str py) items bad e Hin Hbad) as [e' He'].
    exists e'. unfold search_locations. rewrite request_step, Hdata.
    rewrite (truthy_dict_with_entry _ _ _ Hres). cbn [negb].
    unfold lift, dict_get. rewrite Hres. cbn [bind].
    destruct items as [|first others]; [destruct Hin|].
    cbn [truthy negb py_iter bind]. now rewrite He'.
  - intros match_ H. unfold location_str, dict_get. cbn [bind]. now rewrite H.
  - intros match_ text H. unfold location_str, dict_get. cbn [bind]. now rewrite H.
Qed.

Lemma one_bad_match_fails_the_search_witness :
  exists e',
    search_locations sample_builtins
      (constant_world (mkdate 2025 6 15)
         (ok_body (PDict [("results",
                           PList [PDict sample_location;
                                  PDict [("name", PStr "Nowhere");
                                         ("latitude", PNone)]])])))
      "Paris" []
    = (Raise e', [search_url "Paris"]).
Proof.
  exact (proj1 (one_bad_match_fails_the_search sample_builtins
                  (constant_world (mkdate 2025 6 15)
                     (ok_body (PDict [("results",
                                       PList [PDict sample_location;
                                              PDict [("name", PStr "Nowhere");
                                                     ("latitude", PNone)]])])))
                  "Paris" []
                  [("results",
                    PList [PDict sample_location;
                           PDict [("name", PStr "Nowhere"); ("latitude", PNone)]])]
                  [PDict sample_location;
                   PDict [("name", PStr "Nowhere"); ("latitude", PNone)]]
                  (PDict [("name", PStr "Nowhere"); ("latitude", PNone)]) TypeError
                  eq_refl eq_refl (or_intror (or_introl eq_refl)) eq_refl)).
Defined.

(** ** Metrics that are no numbers *)

(** X12: [get_weather_alerts] compares a metric as soon as it is not
    [None].  A temperature that is a string, a list or an object makes the
    call raise [TypeError]; so does such a wind speed or precipitation when
    the metrics before it are numbers or absent.  The weather code is only
    tested for equality and never raises. *)
Theorem alerts_raise_on_non_numbers (data current : list (string * pyval)) :
  match lookup "current" data with Some v => v | None => PDict [] end = PDict current ->
  let temp := field current "temperature_2m" in
  let wind_speed := field current "wind_speed_10m" in
  let precipitation := field current "precipitation" in
  (number_or_absent temp = false -> alerts_report (PDict data) = Raise TypeError)
  /\ (number_or_absent temp = true -> number_or_absent wind_speed = false ->
      alerts_report (PDict data) = Raise TypeError)
  /\ (number_or_absent temp = true -> number_or_absent wind_speed = true ->
      number_or_absent precipitation = false ->
      alerts_report (PDict data) = Raise TypeError).
Proof.
  intros Hcur temp wind_speed precipitation.
  assert (Hbad : forall v c, number_or_absent v = false ->
            is_none v = false /\ py_ge v c = Raise TypeError).
  { intros v c H. destruct v; try discriminate H; split; reflexivity. }
  assert (Hstart : alerts_report (PDict data)
            = bind (if negb (is_none temp) then
                      hot <- py_ge temp 35 ;;
                      if hot then Ok (append [] HEAT_WARNING)
                      else
                        cold <- py_le temp (-20) ;;
                        if cold then Ok (append [] COLD_WARNING) else Ok []
                    else Ok [])
                (fun alerts =>
                   alerts <-
                     (if negb (is_none wind_speed) then
                        windy <- py_ge wind_speed 60 ;;
                        if windy then Ok (append alerts WIND_WARNING) else Ok alerts
                      else Ok alerts) ;;
                   alerts <-
                     (if negb (is_none precipitation) then
                        wet <- py_ge precipitation 20 ;;
                        if wet then Ok (append alerts PRECIPITATION_WARNING)
                        else Ok alerts
                      else Ok alerts) ;;
                   let alerts :=
                     if py_in (field current "weather_code") [95; 96; 99]%Z
                     then append alerts THUNDERSTORM_WARNING else alerts in
                   match alerts with
                   | [] => Ok NO_ALERTS
                   | _ => Ok ("Weather Alerts:" ++ nl ++ join nl alerts)
                   end)).
  { unfold alerts_report, dict_get at 1. rewrite Hcur. reflexivity. }
  rewrite Hstart. clear Hstart. split; [|split].
  - intros H. destruct (Hbad temp 35%Z H) as [N G]. now rewrite N, G.
  - intros Ht H. rewrite (temperature_step temp [] Ht). cbn [bind].
    destruct (Hbad wind_speed 60%Z H) as [N G]. now rewrite N, G.
  - intros Ht Hw H. rewrite (temperature_step temp [] Ht). cbn [bind].
    rewrite (threshold_step wind_speed 60 WIND_WARNING _ Hw). cbn [bind].
    destruct (Hbad precipitation 20%Z H) as [N G]. now rewrite N, G.
Qed.

Lemma alerts_raise_on_non_numbers_witness :
  number_or_absent (field [("temperature_2m", PStr "hot")] "temperature_2m") = false
  /\ alerts_report (PDict [("current", PDict [("temperature_2m", PStr "hot")])])
     = Raise TypeError.
Proof.
  split; [reflexivity|].
  exact (proj1 (alerts_raise_on_non_numbers
                  [("current", PDict [("temperature_2m", PStr "hot")])]
                  [("temperature_2m", PStr "hot")] eq_refl) eq_refl).
Defined.

(** ** How the comparison tells failure from success *)

Lemma lower_char_upper_char (c : ascii) : lower_char (upper_char c) = lower_char c.
Proof. destruct c as [[] [] [] [] [] [] [] []]; reflexivity. Qed.

Lemma lower_char_idempotent (c : ascii) : lower_char (lower_char c) = lower_char c.
Proof. destruct c as [[] [] [] [] [] [] [] []]; reflexivity. Qed.

Lemma lower_upper (s : string) : lower (ascii_upper s) = lower s.
Proof.
  induction s as [|c s IH]; [reflexivity|].
  unfold lower, ascii_upper in *. simpl. now rewrite lower_char_upper_char, IH.
Qed.

Lemma lower_lower (s : string) : lower (lower s) = lower s.
Proof.
  induction s as [|c s IH]; [reflexivity|].
  unfold lower in *. simpl. now rewrite lower_char_idempotent, IH.
Qed.

(** X13: the test that [compare_weather_cities] applies to a lookup's text
    does not depend on the case of its ASCII letters: the text with its
    letters a to z in capitals, and the text with its letters A to Z made
    small, are classified as the text itself is. *)
Theorem failure_test_ignores_case (weather : string) :
  lookup_failed (ascii_upper weather) = lookup_failed weather
  /\ lookup_failed (lower weather) = lookup_failed weather.
Proof.
  unfold lookup_failed. now rewrite lower_upper, lower_lower.
Qed.

Lemma contains_itself (needle : string) : contains needle needle = true.
Proof.
  assert (P : String.prefix needle needle = true).
  { induction needle as [|a needle IH]; [reflexivity|]. simpl.
    destruct (ascii_dec a a); [exact IH|congruence]. }
  destruct needle; simpl in *; now rewrite ?P.
Qed.

Lemma spelled_marker_is_found (marker before_ spelled after_ : string) :
  lower spelled = marker ->
  contains marker (lower (before_ ++ spelled ++ after_)) = true.
Proof.
  intros H. rewrite !lower_app, H.
  apply contains_app_r, contains_app_keeps, contains_itself.
Qed.

(** X14: a lookup that succeeded is taken for a failure when its report
    spells a marker.  If the first city's report holds, in any mix of cases,
    the words "not found" or "unable to fetch" (as the report of a place
    named "Not Found Creek" does, in its heading), [compare_weather_cities]
    answers "Could not get weather data for" that city and shows no
    comparison. *)
Theorem report_spelling_a_marker_counts_as_failure (py : builtins) (env : world)
    (city1 city2 weather1 weather2 : string) (log log1 log2 : list string)
    (before_ spelled after_ : string) :
  get_weather_by_city py env city1 log = (Ok weather1, log1) ->
  get_weather_by_city py env city2 log1 = (Ok weather2, log2) ->
  weather1 = before_ ++ spelled ++ after_ ->
  lower spelled = "not found" \/ lower spelled = "unable to fetch" ->
  compare_weather_cities py env city1 city2 log
  = (Ok ("Could not get weather data for " ++ city1 ++ ": " ++ weather1), log2).
Proof.
  intros H1 H2 -> Hm. unfold compare_weather_cities, bindIO. rewrite H1, H2.
  replace (lookup_failed (before_ ++ spelled ++ after_)) with true; [reflexivity|].
  symmetry. unfold lookup_failed. apply orb_true_iff.
  destruct Hm as [Hm|Hm]; [left|right]; now apply spelled_marker_is_found.
Qed.

Lemma report_spelling_a_marker_counts_as_failure_witness :
  marker_named_report
  = "Weather in " ++ "Not Found" ++ String.substring 20 200 marker_named_report
  /\ fst (compare_weather_cities sample_builtins marker_named_env "Creek" "Paris" [])
     = Ok ("Could not get weather data for Creek: " ++ marker_named_report).
Proof.
  split; [reflexivity|].
  assert (H1 : get_weather_by_city sample_builtins marker_named_env "Creek" []
               = (Ok marker_named_report,
                  snd (get_weather_by_city sample_builtins marker_named_env "Creek" [])))
    by reflexivity.
  assert (H2 : get_weather_by_city sample_builtins marker_named_env "Paris"
                 (snd (get_weather_by_city sample_builtins marker_named_env "Creek" []))
               = (Ok sample_report,
                  snd (get_weather_by_city sample_builtins marker_named_env "Paris"
                         (snd (get_weather_by_city sample_builtins marker_named_env
                                 "Creek" [])))))
    by reflexivity.
  rewrite (report_spelling_a_marker_counts_as_failure sample_builtins marker_named_env
             "Creek" "Paris" _ _ [] _ _
             "Weather in " "Not Found" (String.substring 20 200 marker_named_report)
             H1 H2 eq_refl (or_introl eq_refl)).
  reflexivity.
Defined.

Lemma prefix_before_other_char (needle s : string) (q : ascii) :
  lacks q needle = true ->
  String.prefix needle (s ++ String q "") = String.prefix needle s.
Proof.
  revert s. induction needle as [|a needle IH]; intros s H.
  - now destruct s.
  - simpl in H. apply andb_true_iff in H as [Ha Hn].
    destruct s as [|b s]; simpl.
    + destruct (ascii_dec a q) as [->|]; [|reflexivity].
      now rewrite Ascii.eqb_refl in Ha.
    + destruct (ascii_dec a b); [now apply IH|reflexivity].
Qed.

Lemma contains_before_other_char (needle s : string) (q : ascii) :
  lacks q needle = true ->
  contains needle (s ++ String q "") = contains needle s.
Proof.
  intros H. induction s as [|c s IH].
  - change ("" ++ String q "") with (String q "").
    change (contains needle (String q ""))
      with (if String.prefix needle (String q "") then true else contains needle "").
    change (String q "") with ("" ++ String q "") at 1.
    rewrite (prefix_before_other_char needle "" q H).
    change (contains needle "") with (if String.prefix needle "" then true else false).
    now destruct (String.prefix needle "").
  - rewrite append_cons.
    change (contains needle (String c (s ++ String q "")))
      with (if String.prefix needle (String c (s ++ String q "")) then true
            else contains needle (s ++ String q "")).
    rewrite <- append_cons, (prefix_before_other_char needle (String c s) q H), IH.
    reflexivity.
Qed.

(** X15: the message "Could not get coordinates for" a city is classified
    by [compare_weather_cities] as the city's name alone would be.  So when
    the first city's match lacks a coordinate and neither its name nor the
    second city's text spells a marker, the lookup that failed is not
    reported: the message stands in the comparison as the first city's
    report. *)
Theorem missing_coordinates_pass_as_a_report (py : builtins) (env : world)
    (city1 city2 weather2 : string) (log log2 : list string)
    (data location : list (string * pyval)) (results : pyval) :
  lookup_failed ("Could not get coordinates for '" ++ city1 ++ "'") = lookup_failed city1
  /\ (fetch_result (network env (List.length log) (city_search_url city1)) = PDict data ->
      lookup "results" data = Some results ->
      truthy results = true ->
      py_getitem results 0 = Ok (PDict location) ->
      is_none (field location "latitude") || is_none (field location "longitude") = true ->
      get_weather_by_city py env city2 (log ++ [city_search_url city1])%list
      = (Ok weather2, log2) ->
      lookup_failed city1 = false ->
      lookup_failed weather2 = false ->
      compare_weather_cities py env city1 city2 log
      = (Ok (comparison py city1 ("Could not get coordinates for '" ++ city1 ++ "'")
               city2 weather2),
         log2)).
Proof.
  assert (E : lookup_failed ("Could not get coordinates for '" ++ city1 ++ "'")
              = lookup_failed city1).
  { unfold lookup_failed. rewrite !lower_app.
    change (lower "'") with "'".
    change (contains "not found" (lower "Could not get coordinates for '"
                                  ++ lower city1 ++ "'"))
      with (contains "not found" (lower city1 ++ "'")).
    change (contains "unable to fetch" (lower "Could not get coordinates for '"
                                        ++ lower city1 ++ "'"))
      with (contains "unable to fetch" (lower city1 ++ "'")).
    now rewrite !contains_before_other_char by reflexivity. }
  split; [exact E|].
  intros Hdata Hres Htrue Hitem Hnone H2 F1 F2.
  unfold compare_weather_cities, bindIO.
  rewrite (city_lookup_after_geocoding py env city1 log data location results
             Hdata Hres Htrue Hitem), Hnone, H2, E, F1, F2.
  reflexivity.
Qed.

Lemma missing_coordinates_pass_as_a_report_witness :
  lookup_failed "Atlantis" = false
  /\ fst (compare_weather_cities sample_builtins
            (scripted_world (mkdate 2025 6 15)
               [ok_body (PDict [("results", PList [PDict [("name", PStr "Atlantis")]])]);
                ok_body sample_geocoding; ok_body sample_weather])
            "Atlantis" "Paris" [])
     = Ok (comparison sample_builtins "Atlantis"
             "Could not get coordinates for 'Atlantis'" "Paris" sample_report).
Proof.
  split; [reflexivity|].
  rewrite (proj2 (missing_coordinates_pass_as_a_report sample_builtins
                    (scripted_world (mkdate 2025 6 15)
                       [ok_body (PDict [("results",
                                         PList [PDict [("name", PStr "Atlantis")]])]);
                        ok_body sample_geocoding; ok_body sample_weather])
                    "Atlantis" "Paris" sample_report []
                    [city_search_url "Atlantis"; city_search_url "Paris";
                     nth 1 sample_log ""]
                    [("results", PList [PDict [("name", PStr "Atlantis")]])]
                    [("name", PStr "Atlantis")]
                    (PList [PDict [("name", PStr "Atlantis")]]))
             eq_refl eq_refl eq_refl eq_refl eq_refl eq_refl eq_refl eq_refl).
  reflexivity.
Defined.

(** ** What [strptime] returns *)

(** X16: whatever [strptime] accepts is a day of the calendar: a year from
    1 to 9999, a month from 1 to 12 and a day the month has in that year.  So
    the date [get_historical_weather] compares with today is always a real
    one. *)
Theorem strptime_returns_calendar_dates (py : builtins) (s : string) (d : date) :
  strptime py s = Ok d -> valid_date d.
Proof.
  intros H. apply strptime_sound in H as (_ & _ & _ & _ & _ & _ & _ & V). exact V.
Qed.

Lemma strptime_returns_calendar_dates_witness :
  strptime sample_builtins "2024-2-29" = Ok (mkdate 2024 2 29)
  /\ valid_date (mkdate 2024 2 29).
Proof.
  split; [reflexivity|].
  exact (strptime_returns_calendar_dates sample_builtins "2024-2-29" (mkdate 2024 2 29)
           eq_refl).
Defined.

(** ** The order of the two lookups *)

(** X17: [compare_weather_cities] looks up both cities before it judges
    either.  When the first lookup returns a text, the second city is looked
    up even if that text reports a failure, and an exception of the second
    lookup then replaces the message about the first city; when the first
    lookup raises, the second city is never requested. *)
Theorem compare_looks_up_both_cities_first (py : builtins) (env : world)
    (city1 city2 : string) (log log1 : list string) :
  (forall weather1,
      get_weather_by_city py env city1 log = (Ok weather1, log1) ->
      snd (compare_weather_cities py env city1 city2 log)
      = snd (get_weather_by_city py env city2 log1)
      /\ forall e log2,
          get_weather_by_city py env city2 log1 = (Raise e, log2) ->
          compare_weather_cities py env city1 city2 log = (Raise e, log2))
  /\ (forall e,
      get_weather_by_city py env city1 log = (Raise e, log1) ->
      compare_weather_cities py env city1 city2 log = (Raise e, log1)).
Proof.
  split.
  - intros weather1 H1. unfold compare_weather_cities, bindIO. rewrite H1. split.
    + destruct (get_weather_by_city py env city2 log1) as [[weather2|e] log2];
        [|reflexivity].
      destruct (lookup_failed weather1); [reflexivity|].
      now destruct (lookup_failed weather2).
    + intros e log2 H2. now rewrite H2.
  - intros e H1. unfold compare_weather_cities, bindIO. now rewrite H1.
Qed.

Lemma compare_looks_up_both_cities_first_witness :
  get_weather_by_city sample_builtins
    (scripted_world (mkdate 2025 6 15) [TransportError; ok_body (PList [PInt 1])])
    "Paris" []
  = (Ok (city_not_found "Paris"), [city_search_url "Paris"])
  /\ compare_weather_cities sample_builtins
       (scripted_world (mkdate 2025 6 15) [TransportError; ok_body (PList [PInt 1])])
       "Paris" "Rome" []
     = (Raise AttributeError, [city_search_url "Paris"; city_search_url "Rome"]).
Proof.
  assert (H1 : get_weather_by_city sample_builtins
                 (scripted_world (mkdate 2025 6 15)
                    [TransportError; ok_body (PList [PInt 1])])
                 "Paris" []
               = (Ok (city_not_found "Paris"), [city_search_url "Paris"]))
    by reflexivity.
  split; [exact H1|].
  exact (proj2 (proj1 (compare_looks_up_both_cities_first sample_builtins
                         (scripted_world (mkdate 2025 6 15)
                            [TransportError; ok_body (PList [PInt 1])])
                         "Paris" "Rome" [] [city_search_url "Paris"])
                  (city_not_found "Paris") H1)
           AttributeError [city_search_url "Paris"; city_search_url "Rome"] eq_refl).
Defined.
